(** * EPLive test receiver: a model of [test_receiver.py] and its properties

    The receiver binds a UDP socket, appends every datagram it receives to
    a file named after the start time, keeps two counters, prints a
    progress line every 100 packets and a summary when it is interrupted.

    The script is embedded as a function of its environment: the command
    line, the clock, the operating system's answers to [bind] and [open],
    and the list of things that happen at successive [recvfrom] calls.

    - [int] is the interpreter's: what it makes of the first argument, a
      number or a [ValueError], is part of the environment.
    - Exceptions are results of the calls that raise them, and are passed
      on by [bind] until a [try] statement takes them.
    - [while True] is a recursion on what the network delivers. A session
      whose deliveries are used up is still blocked in [recvfrom]: its
      state is the state of every longer session at that point.
    - Ctrl-C reaches the script as [KeyboardInterrupt], while [recvfrom]
      blocks or between two statements of the loop body; an event says
      where.
    - The file object buffers: [write] puts bytes in its buffer, [flush]
      hands them to the operating system, [close] flushes first. The
      script never asks the system to force them to the device.
    - A printed line is kept as the values its f-string interpolates, and
      [total_bytes / (1024 * 1024)] as a fraction.
    - The interpreter exits with 0 when [main] returns, and with 1 after
      the traceback of an exception that leaves it. *)

From Stdlib Require Import ZArith List String Ascii Bool Lia QArith_base.
Import ListNotations.
Open Scope Z_scope.

(** ** Python values the script handles *)

Definition bytes := list Byte.byte.

(** [len(data)] *)
Definition len (b : bytes) : Z := Z.of_nat (List.length b).

(** The exceptions that can leave the calls of the script. *)
Inductive exn : Type :=
| ValueError
| OverflowError
| OSError
| KeyboardInterrupt.

(** What a call does: it returns, it raises, or it never comes back
    (the process is blocked in it). *)
Inductive result (A : Type) : Type :=
| Return (a : A)
| Raise (e : exn)
| Blocked.
Arguments Return {A} a.
Arguments Raise {A} e.
Arguments Blocked {A}.


(** ** The environment of one run *)

(** [addr]: the pair [recvfrom] returns beside the data; the script
    prints [addr[0]] and [addr[1]]. *)
Definition address : Type := string * Z.

(** The statements of the loop body before which a pending interrupt can
    be delivered, named by what they are about to do (lines 39, 42, 43,
    46, 47 and 50 of the script). *)
Inductive point : Type :=
| BeforeConnect
| BeforeCount
| BeforeBytes
| BeforeWrite
| BeforeFlush
| BeforeStats.

Definition point_eqb (p q : point) : bool :=
  match p, q with
  | BeforeConnect, BeforeConnect
  | BeforeCount, BeforeCount
  | BeforeBytes, BeforeBytes
  | BeforeWrite, BeforeWrite
  | BeforeFlush, BeforeFlush
  | BeforeStats, BeforeStats => true
  | _, _ => false
  end.

(** What goes wrong, if anything, in the iteration that handles a
    datagram. *)
Inductive hazard : Type :=
| Smooth                      (* nothing: the iteration runs to its end *)
| Signal (p : point)          (* Ctrl-C, delivered before statement [p] *)
| WriteFails                  (* [f.write] raises [OSError], taking nothing *)
| FlushFails.                 (* [f.flush] raises [OSError], handing nothing over *)

(** What happens at one call of [sock.recvfrom(65535)]. *)
Inductive event : Type :=
| Recv (data : bytes) (addr : address) (h : hazard)
| RecvInterrupted             (* Ctrl-C while blocked in the call *)
| RecvFails.                  (* the call raises [OSError] *)

Record env : Type := mkEnv {
  argv : list string;         (* [sys.argv] *)
  int_argv1 : result Z;       (* what [int(sys.argv[1])] does, line 13;
                                 not looked at without that argument *)
  bind_refused : bool;        (* the system refuses the port (in use, ...) *)
  started_at : string;        (* [datetime.now()] as '%H:%M:%S', line 21 *)
  stamp : string;             (* [datetime.now()] as '%Y%m%d_%H%M%S', line 28 *)
  open_refused : bool;        (* the file cannot be created *)
  events : list event         (* one per [recvfrom], in order *)
}.

(** ** What the run changes *)

Inductive socket_state : Type :=
| NoSocket
| Created
| Bound (port : Z)
| Closed.

(** The object [open(output_file, 'wb')] returns: [stored] is what the
    file holds, [pending] what [write] has put in the object's buffer
    and [flush] has not yet handed over. *)
Record file : Type := mkFile {
  name : string;
  stored : bytes;
  pending : bytes;
  closed : bool
}.

(** The lines printed, by the values their f-strings interpolate. *)
Inductive line : Type :=
| Title
| Listening (port : Z)
| Started (t : string)
| Rule
| Saving (output_file : string)
| WaitingForData
| Connected (host : string) (port : Z)
| Stats (packet_count : Z) (mb : Q) (last : Z)
| Stopped
| TotalPackets (packet_count : Z)
| TotalData (mb : Q)
| SavedTo (output_file : string)
| DoubleRule
| ToPlay
| Ffplay (output_file : string)
| Or
| Vlc (output_file : string).

Record state : Type := mkState {
  sock : socket_state;
  total_bytes : Z;
  packet_count : Z;
  f : option file;            (* [None]: no file has been created *)
  stdout : list line
}.

Definition boot : state :=
  {| sock := NoSocket; total_bytes := 0; packet_count := 0;
     f := None; stdout := [] |}.

Definition set_sock (x : socket_state) (s : state) : state :=
  {| sock := x; total_bytes := total_bytes s; packet_count := packet_count s;
     f := f s; stdout := stdout s |}.
Definition set_total_bytes (x : Z) (s : state) : state :=
  {| sock := sock s; total_bytes := x; packet_count := packet_count s;
     f := f s; stdout := stdout s |}.
Definition set_packet_count (x : Z) (s : state) : state :=
  {| sock := sock s; total_bytes := total_bytes s; packet_count := x;
     f := f s; stdout := stdout s |}.
Definition set_f (x : option file) (s : state) : state :=
  {| sock := sock s; total_bytes := total_bytes s; packet_count := packet_count s;
     f := x; stdout := stdout s |}.
Definition set_stdout (x : list line) (s : state) : state :=
  {| sock := sock s; total_bytes := total_bytes s; packet_count := packet_count s;
     f := f s; stdout := x |}.

(** ** Statements: state passing with exceptions *)

Definition M (A : Type) : Type := state -> result A * state.

Definition ret {A} (a : A) : M A := fun s => (Return a, s).

Definition bind {A B} (m : M A) (k : A -> M B) : M B :=
  fun s =>
    match m s with
    | (Return a, s') => k a s'
    | (Raise e, s') => (Raise e, s')
    | (Blocked, s') => (Blocked, s')
    end.

Definition raise {A} (e : exn) : M A := fun s => (Raise e, s).
Definition get : M state := fun s => (Return s, s).
Definition modify (g : state -> state) : M unit := fun s => (Return tt, g s).
Definition lift {A} (r : result A) : M A := fun s => (r, s).

Declare Scope py_scope.
Delimit Scope py_scope with py.
Notation "x <- m ;; k" := (bind m (fun x => k))
  (at level 61, m at next level, right associativity) : py_scope.
Notation "m ;; k" := (bind m (fun _ => k))
  (at level 61, right associativity) : py_scope.
Open Scope py_scope.

(** [try: body finally: cleanup] *)
Definition try_finally {A} (body : M A) (cleanup : M unit) : M A :=
  fun s =>
    match body s with
    | (Return a, s') => (cleanup ;; ret a) s'
    | (Raise e, s') => (cleanup ;; raise e) s'
    | (Blocked, s') => (Blocked, s')
    end.

(** [try: body except KeyboardInterrupt: handler] *)
Definition try_except_KeyboardInterrupt (body handler : M unit) : M unit :=
  fun s =>
    match body s with
    | (Raise KeyboardInterrupt, s') => handler s'
    | other => other
    end.

(** [print(...)] *)
Definition print (l : line) : M unit :=
  modify (fun s => set_stdout (stdout s ++ [l]) s).

(** *** The socket *)

Definition socket_socket : M unit := modify (set_sock Created).

(** [sock.bind(('0.0.0.0', port))]: a port outside 0..65535 is refused by
    the call itself, an unavailable one by the system. *)
Definition sock_bind (e : env) (port : Z) : M unit :=
  if negb ((0 <=? port) && (port <=? 65535)) then raise OverflowError
  else if bind_refused e then raise OSError
  else modify (set_sock (Bound port)).

Definition sock_close : M unit := modify (set_sock Closed).

(** [sock.recvfrom(65535)] *)
Definition sock_recvfrom (ev : event) : M (bytes * address) :=
  match ev with
  | Recv data addr _ => ret (data, addr)
  | RecvInterrupted => raise KeyboardInterrupt
  | RecvFails => raise OSError
  end.

(** *** The file object *)

Definition file_write (data : bytes) (o : file) : file :=
  {| name := name o; stored := stored o; pending := pending o ++ data;
     closed := closed o |}.

Definition file_flush (o : file) : file :=
  {| name := name o; stored := stored o ++ pending o; pending := [];
     closed := closed o |}.

(** [close] flushes, then releases the file. The flush inside [close] is
    taken to succeed: a storage failure that lasts into the shutdown is
    not among the events of a run. *)
Definition file_close (o : file) : file :=
  {| name := name o; stored := stored o ++ pending o; pending := [];
     closed := true |}.

(** What the file will hold once everything written has been handed over. *)
Definition contents (o : file) : bytes := stored o ++ pending o.

(** What is left of the file if the process is killed now: the buffer of
    the object dies with it, what [flush] handed to the operating system
    stays. *)
Definition after_kill (o : file) : bytes := stored o.

(** What is left of the file if the machine stops now. The script never
    calls [os.fsync]: of the bytes handed to the operating system, the
    device holds as many as the system had chosen to write back,
    [written_back] of them, possibly none. *)
Definition after_power_loss (written_back : nat) (o : file) : bytes :=
  firstn written_back (stored o).

Definition on_open_file (g : file -> file) : M unit :=
  fun s =>
    match f s with
    | Some o => if closed o then (Raise ValueError, s)
                else (Return tt, set_f (Some (g o)) s)
    | None => (Raise ValueError, s)
    end.

(** [f.write(data)] *)
Definition f_write (h : hazard) (data : bytes) : M unit :=
  match h with
  | WriteFails => raise OSError
  | _ => on_open_file (file_write data)
  end.

(** [f.flush()] *)
Definition f_flush (h : hazard) : M unit :=
  match h with
  | FlushFails => raise OSError
  | _ => on_open_file file_flush
  end.

(** [with open(output_file, 'wb') as f: body]: the file is created empty,
    and closed when the body is left, by an exception or not. *)
Definition with_open (e : env) (output_file : string) (body : M unit) : M unit :=
  if open_refused e then raise OSError
  else
    modify (set_f (Some {| name := output_file; stored := []; pending := [];
                           closed := false |})) ;;
    try_finally body (modify (fun s => set_f (option_map file_close (f s)) s)).

(** *** Interrupts *)

(** A pending Ctrl-C is raised before the statement it was delivered at. *)
Definition checkpoint (h : hazard) (p : point) : M unit :=
  match h with
  | Signal q => if point_eqb p q then raise KeyboardInterrupt else ret tt
  | _ => ret tt
  end.

Definition hazard_of (ev : event) : hazard :=
  match ev with
  | Recv _ _ h => h
  | _ => Smooth
  end.

(** ** The script *)

(** [total_bytes / (1024 * 1024)] *)
Definition megabytes (total : Z) : Q := Qmake total (1024 * 1024).

(** Lines 37 to 52: one turn of the loop. *)
Definition iteration (ev : event) : M unit :=
  let h := hazard_of ev in
  received <- sock_recvfrom ev ;;
  let '(data, addr) := received in
  checkpoint h BeforeConnect ;;
  s <- get ;;
  (if packet_count s =? 0
   then print (Connected (fst addr) (snd addr))
   else ret tt) ;;
  checkpoint h BeforeCount ;;
  modify (fun s => set_packet_count (packet_count s + 1) s) ;;
  checkpoint h BeforeBytes ;;
  modify (fun s => set_total_bytes (total_bytes s + len data) s) ;;
  checkpoint h BeforeWrite ;;
  f_write h data ;;
  checkpoint h BeforeFlush ;;
  f_flush h ;;
  checkpoint h BeforeStats ;;
  s <- get ;;
  if packet_count s mod 100 =? 0
  then print (Stats (packet_count s) (megabytes (total_bytes s)) (len data))
  else ret tt.

(** Lines 36 to 52: [while True]. With nothing more delivered the
    process stays in [recvfrom]. *)
Fixpoint receive_loop (evs : list event) : M unit :=
  match evs with
  | [] => lift Blocked
  | ev :: evs' => iteration ev ;; receive_loop evs'
  end.

(** Line 13. [int] is the interpreter's: the run says what it makes of
    the argument, a number or the exception it raises. *)
Definition port_of (e : env) : result Z :=
  match argv e with
  | _ :: _ :: _ => int_argv1 e
  | _ => Return 8888
  end.

(** Line 28. *)
Definition output_file_of (e : env) : string :=
  ("stream_" ++ stamp e ++ ".h264")%string.

(** Lines 55 to 64. *)
Definition farewell (output_file : string) : M unit :=
  print DoubleRule ;;
  print Stopped ;;
  s <- get ;;
  print (TotalPackets (packet_count s)) ;;
  print (TotalData (megabytes (total_bytes s))) ;;
  print (SavedTo output_file) ;;
  print DoubleRule ;;
  print ToPlay ;;
  print (Ffplay output_file) ;;
  print Or ;;
  print (Vlc output_file).

(** Lines 34 to 67. *)
Definition recording (e : env) (output_file : string) : M unit :=
  try_finally
    (try_except_KeyboardInterrupt
       (with_open e output_file (receive_loop (events e)))
       (farewell output_file))
    sock_close.

Definition main (e : env) : M unit :=
  port <- lift (port_of e) ;;
  socket_socket ;;
  sock_bind e port ;;
  print Title ;;
  print (Listening port) ;;
  print (Started (started_at e)) ;;
  print Rule ;;
  modify (set_total_bytes 0) ;;
  modify (set_packet_count 0) ;;
  let output_file := output_file_of e in
  print (Saving output_file) ;;
  print WaitingForData ;;
  print Rule ;;
  recording e output_file.

(** ** The process *)

(** How the interpreter ends: [main] returned, or an exception left it
    and its traceback went to the error stream, or it is still running. *)
Record outcome : Type := mkOutcome {
  exit_code : option Z;
  traceback : option exn;
  final : state
}.

Definition python3 (e : env) : outcome :=
  match main e boot with
  | (Return _, s) => {| exit_code := Some 0; traceback := None; final := s |}
  | (Raise x, s) => {| exit_code := Some 1; traceback := Some x; final := s |}
  | (Blocked, s) => {| exit_code := None; traceback := None; final := s |}
  end.

(** The output artifact: the bytes in the file, if one was created. *)
Definition artifact (s : state) : option bytes := option_map stored (f s).

(** * The vocabulary of the properties *)

(** ** One turn of the loop, and a run of them *)

(** The file is there and has not been closed. *)
Definition is_open (s : state) : bool :=
  match f s with
  | Some o => negb (closed o)
  | None => false
  end.

(** A datagram as [recvfrom] returns it. *)
Definition datagram : Type := bytes * address.

(** The state a turn without incident leaves behind. *)
Definition turn (d : datagram) (s : state) : state :=
  {| sock := sock s;
     total_bytes := total_bytes s + len (fst d);
     packet_count := packet_count s + 1;
     f := option_map (fun o => file_flush (file_write (fst d) o)) (f s);
     stdout :=
       (stdout s
        ++ (if packet_count s =? 0
            then [Connected (fst (snd d)) (snd (snd d))] else []))
        ++ (if (packet_count s + 1) mod 100 =? 0
            then [Stats (packet_count s + 1)
                        (megabytes (total_bytes s + len (fst d)))
                        (len (fst d))]
            else []) |}.

(** Datagrams that arrive and are handled without incident. *)
Definition arrivals (ds : list datagram) : list event :=
  map (fun d => Recv (fst d) (snd d) Smooth) ds.

Definition turns (ds : list datagram) (s : state) : state :=
  fold_left (fun s d => turn d s) ds s.

(** The payloads, one after the other. *)
Definition payloads (ds : list datagram) : bytes := List.concat (map fst ds).

(** The sum of the lengths of the payloads. *)
Definition lengths (ds : list datagram) : Z :=
  fold_right (fun d acc => len (fst d) + acc) 0 ds.

(** ** Start and end of a session *)

(** The command line names a port the system grants. *)
Definition starts (e : env) (port : Z) : Prop :=
  port_of e = Return port /\
  (0 <=? port) && (port <=? 65535) = true /\
  bind_refused e = false.

(** The state at line 34, once the socket is bound and the banner out. *)
Definition listening (e : env) (port : Z) : state :=
  {| sock := Bound port; total_bytes := 0; packet_count := 0; f := None;
     stdout := [Title; Listening port; Started (started_at e); Rule;
                Saving (output_file_of e); WaitingForData; Rule] |}.

(** The state at line 36, with the file just created. *)
Definition recording_starts (e : env) (port : Z) : state :=
  set_f (Some {| name := output_file_of e; stored := []; pending := [];
                 closed := false |})
        (listening e port).

(** What the handler of the interrupt prints. *)
Definition summary (output_file : string) (s : state) : list line :=
  [DoubleRule; Stopped; TotalPackets (packet_count s);
   TotalData (megabytes (total_bytes s)); SavedTo output_file; DoubleRule;
   ToPlay; Ffplay output_file; Or; Vlc output_file].

(** Leaving the [with] block: the file is closed. *)
Definition leave_with (s : state) : state :=
  set_f (option_map file_close (f s)) s.

(** ** Interrupted turns *)

(** The order of the statements of the loop body. *)
Definition rank (p : point) : nat :=
  match p with
  | BeforeConnect => 0
  | BeforeCount => 1
  | BeforeBytes => 2
  | BeforeWrite => 3
  | BeforeFlush => 4
  | BeforeStats => 5
  end.

(** The statement at [q] has run when a signal is delivered before [p]. *)
Definition passed (q p : point) : bool := (rank q <? rank p)%nat.

(** The state in which a turn is left when Ctrl-C arrives before [p]. *)
Definition interrupted_turn (d : datagram) (p : point) (s : state) : state :=
  {| sock := sock s;
     total_bytes :=
       if passed BeforeBytes p then total_bytes s + len (fst d)
       else total_bytes s;
     packet_count :=
       if passed BeforeCount p then packet_count s + 1 else packet_count s;
     f := option_map
            (fun o =>
               if passed BeforeFlush p then file_flush (file_write (fst d) o)
               else if passed BeforeWrite p then file_write (fst d) o
               else o)
            (f s);
     stdout :=
       if passed BeforeConnect p && (packet_count s =? 0)
       then stdout s ++ [Connected (fst (snd d)) (snd (snd d))]
       else stdout s |}.

(** Ctrl-C, while waiting for a datagram or while handling one. *)
Definition interrupts (ev : event) : bool :=
  match ev with
  | RecvInterrupted => true
  | Recv _ _ (Signal _) => true
  | _ => false
  end.

(** The payload [f.write] took before the interrupt, if it got that far. *)
Definition appended (ev : event) : bytes :=
  match ev with
  | Recv data _ (Signal p) => if passed BeforeWrite p then data else []
  | _ => []
  end.

(** What the interrupted turn had added to the counters. *)
Definition counted (ev : event) : Z :=
  match ev with
  | Recv _ _ (Signal p) => if passed BeforeCount p then 1 else 0
  | _ => 0
  end.

Definition counted_bytes (ev : event) : Z :=
  match ev with
  | Recv data _ (Signal p) => if passed BeforeBytes p then len data else 0
  | _ => 0
  end.

(** ** What is read off the console and the file *)

Definition is_stats (l : line) : bool :=
  match l with Stats _ _ _ => true | _ => false end.

(** The progress lines among the lines printed. *)
Definition progress (out : list line) : list line := filter is_stats out.

(** A progress line shows a positive multiple of 100. *)
Definition on_cadence (l : line) : Prop :=
  match l with
  | Stats n _ _ => 0 < n /\ n mod 100 = 0
  | _ => True
  end.

(** The addresses announced by "Connected from" lines. *)
Definition senders (out : list line) : list address :=
  flat_map (fun l => match l with Connected h p => [(h, p)] | _ => [] end) out.

(** The figures of the "Total packets" lines. *)
Definition reported_packets (out : list line) : list Z :=
  flat_map (fun l => match l with TotalPackets n => [n] | _ => [] end) out.

Definition nobody : datagram := ([], (EmptyString, 0)).

(** The line printed in the [k]th turn of [ds], counting from 1, when
    the run started with [count] packets and [total] bytes. *)
Definition stats_line (count total : Z) (ds : list datagram) (k : nat) : line :=
  Stats (count + Z.of_nat k)
        (megabytes (total + lengths (firstn k ds)))
        (len (fst (nth (k - 1) ds nobody))).

(** The progress line of the [k]th of the datagrams [ds], counting from
    1: the count, the bytes of the first [k] payloads over 1024 * 1024,
    and the length of that payload. *)
Definition progress_line (ds : list datagram) (k : nat) : line :=
  Stats (Z.of_nat k)
        (Qmake (lengths (firstn k ds)) 1048576)
        (len (fst (nth (k - 1) ds nobody))).

(** The address the first turn announces. *)
Definition first_sender (evs : list event) : list address :=
  match evs with
  | Recv _ addr (Signal BeforeConnect) :: _ => []
  | Recv _ addr _ :: _ => [addr]
  | _ => []
  end.

Fixpoint split_by (ns : list nat) (b : bytes) : list bytes :=
  match ns with
  | [] => []
  | n :: ns' => firstn n b :: split_by ns' (skipn n b)
  end.

(** ** Sample sessions *)

Definition camera : address := ("192.168.1.20"%string, 51234).
Definition other_camera : address := ("192.168.1.21"%string, 40000).

Definition sample (n : nat) : bytes := repeat Byte.x47 n.

(** [python3 test_receiver.py 9000], started at 10:15:00. *)
Definition session (evs : list event) : env :=
  {| argv := ["test_receiver.py"; "9000"]%string;
     int_argv1 := Return 9000;
     bind_refused := false;
     started_at := "10:15:00";
     stamp := "20250101_101500";
     open_refused := false;
     events := evs |}.

(** Datagrams of 10, 20 and 5 bytes. *)
Definition three : list datagram :=
  [(sample 10, camera); (sample 20, other_camera); (sample 5, camera)].

(** 250 datagrams of 4 bytes each. *)
Definition burst : list datagram := repeat (sample 4, camera) 250.

(** The three datagrams, then Ctrl-C while waiting for a fourth. *)
Definition stopped_session : env := session (arrivals three ++ [RecvInterrupted]).

(** The three datagrams, then a fourth whose turn is interrupted between
    [f.write] and [f.flush]; what follows is never received. *)
Definition cut_short : event := Recv (sample 5) camera (Signal BeforeFlush).
Definition cut_session : env := session (arrivals three ++ cut_short :: arrivals three).

(** The loop after 99 datagrams of 4 bytes. *)
Definition ninety_nine : state :=
  turns (repeat (sample 4, camera) 99) (recording_starts (session []) 9000).

(** One datagram of 10 bytes whose [f.write] fails. *)
Definition failed_write : env := session [Recv (sample 10) camera WriteFails].

(** One datagram of 10 bytes, and Ctrl-C just before its [f.write]. *)
Definition early_interrupt : env :=
  session [Recv (sample 10) camera (Signal BeforeWrite)].

(** [python3 test_receiver.py] while another process holds port 8888. *)
Definition refused_port : env :=
  {| argv := ["test_receiver.py"]%string;
     int_argv1 := Return 0;
     bind_refused := true;
     started_at := "10:15:00";
     stamp := "20250101_101500";
     open_refused := false;
     events := [] |}.

(** [python3 test_receiver.py eighty] *)
Definition misspelt_port : env :=
  {| argv := ["test_receiver.py"; "eighty"]%string;
     int_argv1 := Raise ValueError;
     bind_refused := false;
     started_at := "10:15:00";
     stamp := "20250101_101500";
     open_refused := false;
     events := [] |}.

(** ** Sessions in general *)

(** A datagram handled without incident. *)
Definition smooth (ev : event) : bool :=
  match ev with
  | Recv _ _ Smooth => true
  | _ => false
  end.

(** The datagrams handled before the first incident. *)
Fixpoint smooth_prefix (evs : list event) : list datagram :=
  match evs with
  | Recv data addr Smooth :: evs' => (data, addr) :: smooth_prefix evs'
  | _ => []
  end.

(** The first event that is not one. *)
Definition first_incident (evs : list event) : option event :=
  find (fun ev => negb (smooth ev)) evs.

(** The data [recvfrom] returned, if it returned. *)
Definition data_of (ev : event) : bytes :=
  match ev with
  | Recv data _ _ => data
  | _ => []
  end.

(** Everything the socket delivers, in order. *)
Definition received (evs : list event) : bytes := List.concat (map data_of evs).

(** The number of datagrams handled before the first incident. *)
Fixpoint handled (evs : list event) : nat :=
  match evs with
  | ev :: evs' => if smooth ev then S (handled evs') else 0
  | [] => 0
  end.

(** [recvfrom(65535)] returns at most 65535 bytes. *)
Definition within_bufsize (evs : list event) : bool :=
  forallb (fun ev => len (data_of ev) <=? 65535) evs.

(** What the file object holds, buffer included. *)
Definition contents_of (s : state) : bytes :=
  match f s with
  | Some o => contents o
  | None => []
  end.

(** The same run with other deliveries. *)
Definition with_events (e : env) (evs : list event) : env :=
  {| argv := argv e; int_argv1 := int_argv1 e; bind_refused := bind_refused e;
     started_at := started_at e; stamp := stamp e;
     open_refused := open_refused e; events := evs |}.

(** The three datagrams, then a fourth of 7 bytes with Ctrl-C just before
    its [f.write]. *)
Definition late_session : env :=
  session (arrivals three ++ [Recv (sample 7) camera (Signal BeforeWrite)]).

(** 99 datagrams of 4 bytes, then a hundredth with Ctrl-C after its
    [f.flush], just before line 50. *)
Definition hundred_cut : env :=
  session (arrivals (repeat (sample 4, camera) 99)
           ++ [Recv (sample 4) camera (Signal BeforeStats)]).

(** One datagram of 10 bytes has been handled; the receiver waits. *)
Definition one_handled : env := session (arrivals [(sample 10, camera)]).

(** The three datagrams arrive, but the file could not be created. *)
Definition no_file : env :=
  {| argv := ["test_receiver.py"; "9000"]%string;
     int_argv1 := Return 9000;
     bind_refused := false;
     started_at := "10:15:00";
     stamp := "20250101_101500";
     open_refused := true;
     events := arrivals three |}.

(** * Lemmas *)

(** ** Lists of datagrams *)

Lemma len_nonneg (b : bytes) : 0 <= len b.
Proof. unfold len. lia. Qed.

Lemma len_app (a b : bytes) : len (a ++ b) = len a + len b.
Proof. unfold len. rewrite length_app. lia. Qed.

Lemma lengths_app (xs ys : list datagram) :
  lengths (xs ++ ys) = lengths xs + lengths ys.
Proof.
  unfold lengths. induction xs as [|x xs IH]; cbn; [reflexivity|].
  rewrite IH. lia.
Qed.

Lemma payloads_app (xs ys : list datagram) :
  payloads (xs ++ ys) = payloads xs ++ payloads ys.
Proof. unfold payloads. now rewrite map_app, concat_app. Qed.

Lemma payloads_one (d : datagram) : payloads [d] = fst d.
Proof. unfold payloads. cbn. apply app_nil_r. Qed.

Lemma len_payloads (ds : list datagram) : len (payloads ds) = lengths ds.
Proof.
  induction ds as [|d ds IH]; [reflexivity|].
  change (payloads (d :: ds)) with (fst d ++ payloads ds).
  rewrite len_app, IH. reflexivity.
Qed.

Lemma split_by_payloads (ds : list datagram) :
  split_by (map (fun d => List.length (fst d)) ds) (payloads ds) = map fst ds.
Proof.
  induction ds as [|d ds IH]; [reflexivity|].
  change (payloads (d :: ds)) with (fst d ++ payloads ds).
  cbn [map split_by].
  rewrite firstn_app, Nat.sub_diag, firstn_all, firstn_O, app_nil_r.
  rewrite skipn_app, Nat.sub_diag, skipn_all, skipn_O. cbn [app].
  now rewrite IH.
Qed.

(** ** A turn without incident *)

Lemma closed_file_write (data : bytes) (o : file) :
  closed (file_write data o) = closed o.
Proof. reflexivity. Qed.

Ltac unfold_statements :=
  cbv [iteration farewell bind ret raise get modify lift print
       sock_recvfrom checkpoint hazard_of f_write f_flush on_open_file
       set_sock set_total_bytes set_packet_count set_f set_stdout point_eqb];
  cbn [fst snd sock total_bytes packet_count f stdout option_map].

Ltac use_file :=
  repeat match goal with
    | H : f ?s = _ |- context [f ?s] => rewrite H
    | H : closed ?o = _ |- context [closed ?o] => rewrite H
    | |- context [closed (file_write _ _)] => rewrite closed_file_write
    end.

(** Run the statements of a turn on a symbolic state. *)
Ltac run := repeat (unfold_statements; use_file).

Ltac split_turn :=
  run;
  repeat (match goal with
          | |- context [match f ?s with _ => _ end] =>
              destruct (f s) as [?o|] eqn:?
          | |- context [if closed ?o then _ else _] => destruct (closed o) eqn:?
          | |- context [if ?a =? ?b then _ else _] => destruct (a =? b) eqn:?
          end; run).

Lemma is_open_inv (s : state) :
  is_open s = true -> exists o, f s = Some o /\ closed o = false.
Proof.
  unfold is_open. destruct (f s) as [o|]; [|discriminate].
  intros H. exists o. split; [reflexivity|].
  now destruct (closed o).
Qed.

Lemma iteration_smooth (d : datagram) (s : state) :
  is_open s = true ->
  iteration (Recv (fst d) (snd d) Smooth) s = (Return tt, turn d s).
Proof.
  intros Hopen. destruct (is_open_inv s Hopen) as (o & Hf & Hc).
  destruct d as [data [host port]]. unfold turn. run.
  destruct (packet_count s =? 0); run;
    destruct ((packet_count s + 1) mod 100 =? 0); run;
    rewrite ?app_nil_r; reflexivity.
Qed.

Lemma is_open_turn (d : datagram) (s : state) :
  is_open s = true -> is_open (turn d s) = true.
Proof.
  unfold is_open, turn. cbn [f].
  destruct (f s) as [o|]; [|discriminate]. cbn. trivial.
Qed.

(** ** A run of turns *)

Lemma turns_snoc (ds : list datagram) (d : datagram) (s : state) :
  turns (ds ++ [d]) s = turn d (turns ds s).
Proof. unfold turns. now rewrite fold_left_app. Qed.

Lemma is_open_turns (ds : list datagram) (s : state) :
  is_open s = true -> is_open (turns ds s) = true.
Proof.
  revert s. induction ds as [|d ds IH]; intros s H; [exact H|].
  cbn. apply IH. now apply is_open_turn.
Qed.

Lemma receive_loop_arrivals (ds : list datagram) (rest : list event) (s : state) :
  is_open s = true ->
  receive_loop (arrivals ds ++ rest) s = receive_loop rest (turns ds s).
Proof.
  revert s. induction ds as [|d ds IH]; intros s H; [reflexivity|].
  cbn [arrivals map app receive_loop]. unfold bind at 1.
  rewrite (iteration_smooth d s H). cbn [turns fold_left].
  apply IH. now apply is_open_turn.
Qed.

Lemma packet_count_turns (ds : list datagram) (s : state) :
  packet_count (turns ds s) = packet_count s + Z.of_nat (List.length ds).
Proof.
  revert s. induction ds as [|d ds IH]; intros s; [cbn; lia|].
  cbn [turns fold_left]. fold (turns ds (turn d s)). rewrite IH.
  cbn [turn packet_count List.length]. lia.
Qed.

Lemma total_bytes_turns (ds : list datagram) (s : state) :
  total_bytes (turns ds s) = total_bytes s + lengths ds.
Proof.
  revert s. induction ds as [|d ds IH]; intros s; [cbn; lia|].
  cbn [turns fold_left]. fold (turns ds (turn d s)). rewrite IH.
  cbn [turn total_bytes lengths fold_right]. fold (lengths ds). lia.
Qed.

Lemma sock_turns (ds : list datagram) (s : state) :
  sock (turns ds s) = sock s.
Proof.
  revert s. induction ds as [|d ds IH]; intros s; [reflexivity|].
  cbn [turns fold_left]. fold (turns ds (turn d s)). now rewrite IH.
Qed.

(** With nothing left in the buffer at the start, the turns leave every
    payload in the file and nothing in the buffer. *)
Lemma f_turns (ds : list datagram) (s : state) (o : file) :
  f s = Some o -> pending o = [] ->
  f (turns ds s) =
  Some {| name := name o; stored := stored o ++ payloads ds; pending := [];
          closed := closed o |}.
Proof.
  revert s o. induction ds as [|d ds IH]; intros s o Hf Hp.
  - cbn. rewrite Hf, app_nil_r. destruct o; cbn in *; now subst.
  - cbn [turns fold_left]. fold (turns ds (turn d s)).
    rewrite (IH (turn d s) (file_flush (file_write (fst d) o))).
    + cbn [file_flush file_write stored pending closed]. rewrite Hp.
      cbn [app]. change (payloads (d :: ds)) with (fst d ++ payloads ds).
      now rewrite app_assoc.
    + cbn [turn f]. now rewrite Hf.
    + reflexivity.
Qed.

(** ** Turns that raise *)

(** An iteration that raises ends the loop there. *)
Lemma receive_loop_raises (ev : event) (rest : list event) (s s' : state) (x : exn) :
  iteration ev s = (Raise x, s') ->
  receive_loop (ev :: rest) s = (Raise x, s').
Proof. intros H. cbn [receive_loop]. unfold bind. now rewrite H. Qed.

(** The loop never falls through: it raises, or it is still waiting. *)
Lemma receive_loop_no_return (evs : list event) (s s' : state) (u : unit) :
  receive_loop evs s <> (Return u, s').
Proof.
  revert s. induction evs as [|ev evs IH]; intros s; [discriminate|].
  cbn [receive_loop]. unfold bind at 1.
  destruct (iteration ev s) as [[[]|x|] s1]; [apply IH|discriminate..].
Qed.

Lemma state_eta (s : state) :
  s = {| sock := sock s; total_bytes := total_bytes s;
         packet_count := packet_count s; f := f s; stdout := stdout s |}.
Proof. now destruct s. Qed.

Lemma iteration_signal (d : datagram) (p : point) (s : state) :
  is_open s = true ->
  iteration (Recv (fst d) (snd d) (Signal p)) s
  = (Raise KeyboardInterrupt, interrupted_turn d p s).
Proof.
  intros Hopen. destruct (is_open_inv s Hopen) as (o & Hf & Hc).
  destruct d as [data [host port]]. unfold interrupted_turn.
  destruct p; cbn [passed rank Nat.ltb Nat.leb andb]; run;
    destruct (packet_count s =? 0); run; rewrite ?Hf;
    cbn [option_map]; try reflexivity;
    rewrite <- Hf; now rewrite <- state_eta.
Qed.

Lemma iteration_interrupted (s : state) :
  iteration RecvInterrupted s = (Raise KeyboardInterrupt, s).
Proof. reflexivity. Qed.

(** Without the [flush] the payload is only in the buffer of the file
    object: a turn stopped between [f.write] and [f.flush] has it in
    [contents] and not in what outlives the process. *)
Lemma unflushed_write (d : datagram) (s : state) (o : file) :
  f s = Some o -> closed o = false -> pending o = [] ->
  option_map after_kill (f (interrupted_turn d BeforeFlush s)) = Some (stored o) /\
  option_map contents (f (interrupted_turn d BeforeFlush s))
  = Some (stored o ++ fst d).
Proof.
  intros Hf Hc Hp. unfold interrupted_turn.
  cbn [f passed rank Nat.ltb Nat.leb]. rewrite Hf.
  cbn [option_map]. unfold after_kill, contents, file_write.
  cbn [stored pending]. now rewrite Hp.
Qed.


(** ** The console *)

Lemma progress_app (a b : list line) :
  progress (a ++ b) = progress a ++ progress b.
Proof. apply filter_app. Qed.

Lemma senders_app (a b : list line) :
  senders (a ++ b) = senders a ++ senders b.
Proof. apply flat_map_app. Qed.

Lemma reported_packets_app (a b : list line) :
  reported_packets (a ++ b) = reported_packets a ++ reported_packets b.
Proof. apply flat_map_app. Qed.

Lemma senders_summary (output_file : string) (s : state) :
  senders (summary output_file s) = [].
Proof. reflexivity. Qed.

Lemma progress_summary (output_file : string) (s : state) :
  progress (summary output_file s) = [].
Proof. reflexivity. Qed.

Lemma reported_packets_summary (output_file : string) (s : state) :
  reported_packets (summary output_file s) = [packet_count s].
Proof. reflexivity. Qed.

(** Once a packet has been counted no turn announces a sender. *)
Lemma iteration_keeps_senders (ev : event) (s : state) :
  1 <= packet_count s ->
  senders (stdout (snd (iteration ev s))) = senders (stdout s) /\
  1 <= packet_count (snd (iteration ev s)).
Proof.
  intros Hc.
  destruct ev as [data addr [|p| |]| |]; try destruct p; split_turn;
    cbn [snd packet_count stdout];
    rewrite ?senders_app, ?app_nil_r;
    try match goal with H : (_ =? 0) = true |- _ => apply Z.eqb_eq in H end;
    (split; [reflexivity || lia | lia]).
Qed.

Lemma receive_loop_keeps_senders (evs : list event) (s : state) :
  1 <= packet_count s ->
  senders (stdout (snd (receive_loop evs s))) = senders (stdout s).
Proof.
  revert s. induction evs as [|ev evs IH]; intros s Hc; [reflexivity|].
  destruct (iteration_keeps_senders ev s Hc) as [Hs Hc'].
  cbn [receive_loop]. unfold bind.
  destruct (iteration ev s) as [[[]|x|] s1]; cbn [snd] in *.
  - rewrite IH; assumption.
  - assumption.
  - assumption.
Qed.

(** The first datagram is announced, unless Ctrl-C comes before line 39. *)
Lemma iteration_announces (data : bytes) (addr : address) (h : hazard) (s : state) :
  packet_count s = 0 -> h <> Signal BeforeConnect ->
  senders (stdout (snd (iteration (Recv data addr h) s)))
  = senders (stdout s) ++ [addr] /\
  (fst (iteration (Recv data addr h) s) = Return tt ->
   packet_count (snd (iteration (Recv data addr h) s)) = 1).
Proof.
  intros Hc Hh. destruct addr as [host port].
  destruct h as [|p| |]; try destruct p; try congruence; split_turn;
    cbn [fst snd packet_count stdout];
    rewrite ?senders_app, ?app_nil_r;
    try match goal with H : (_ =? 0) = false |- _ => apply Z.eqb_neq in H end;
    try lia; (split; [reflexivity | first [discriminate | lia]]).
Qed.

Lemma receive_loop_senders (evs : list event) (s : state) :
  packet_count s = 0 ->
  senders (stdout (snd (receive_loop evs s)))
  = senders (stdout s) ++ first_sender evs.
Proof.
  intros Hc. destruct evs as [|ev evs]; [cbn; now rewrite app_nil_r|].
  destruct ev as [data addr h| |]; try (cbn; now rewrite app_nil_r).
  assert (Hcase : h = Signal BeforeConnect \/ h <> Signal BeforeConnect).
  { destruct h as [|[]| |]; (now left) || (right; discriminate). }
  destruct Hcase as [-> | Hh].
  - cbn. now rewrite app_nil_r.
  - destruct (iteration_announces data addr h s Hc Hh) as [Hs H1].
    replace (first_sender (Recv data addr h :: evs)) with [addr]
      by (destruct h as [|[]| |]; cbn; congruence).
    cbn [receive_loop]. unfold bind.
    destruct (iteration (Recv data addr h) s) as [[[]|x|] s1];
      cbn [fst snd] in *; try assumption.
    rewrite receive_loop_keeps_senders; [assumption|].
    rewrite H1; [lia|reflexivity].
Qed.

Lemma reported_packets_turns (ds : list datagram) (s : state) :
  reported_packets (stdout (turns ds s)) = reported_packets (stdout s).
Proof.
  revert s. induction ds as [|d ds IH]; intros s; [reflexivity|].
  cbn [turns fold_left]. fold (turns ds (turn d s)). rewrite IH.
  unfold turn. cbn [stdout]. rewrite !reported_packets_app.
  destruct (packet_count s =? 0), ((packet_count s + 1) mod 100 =? 0);
    cbn; now rewrite ?app_nil_r.
Qed.

Lemma progress_turn (d : datagram) (s : state) :
  progress (stdout (turn d s))
  = progress (stdout s)
    ++ (if (packet_count s + 1) mod 100 =? 0
        then [Stats (packet_count s + 1)
                    (megabytes (total_bytes s + len (fst d))) (len (fst d))]
        else []).
Proof.
  unfold turn. cbn [stdout]. rewrite !progress_app.
  destruct (packet_count s =? 0), ((packet_count s + 1) mod 100 =? 0);
    cbn; now rewrite ?app_nil_r.
Qed.

Lemma progress_turns (ds : list datagram) (s : state) :
  progress (stdout (turns ds s))
  = progress (stdout s)
    ++ flat_map
         (fun k => if (packet_count s + Z.of_nat k) mod 100 =? 0
                   then [stats_line (packet_count s) (total_bytes s) ds k]
                   else [])
         (seq 1 (List.length ds)).
Proof.
  induction ds as [|d ds IH] using rev_ind.
  - cbn. now rewrite app_nil_r.
  - rewrite turns_snoc, progress_turn, IH.
    rewrite length_app. cbn [List.length]. rewrite Nat.add_1_r, seq_S.
    rewrite flat_map_app, <- app_assoc. f_equal. f_equal.
    + rewrite !flat_map_concat_map. f_equal.
      apply map_ext_in. intros k Hk. apply in_seq in Hk.
      unfold stats_line.
      rewrite firstn_app, app_nth1 by lia.
      replace (k - List.length ds)%nat with 0%nat by lia.
      now rewrite firstn_O, app_nil_r.
    + cbn [flat_map]. rewrite app_nil_r.
      rewrite packet_count_turns, total_bytes_turns.
      unfold stats_line. cbn [Nat.add].
      replace (packet_count s + Z.of_nat (S (List.length ds)))
        with (packet_count s + Z.of_nat (List.length ds) + 1) by lia.
      replace (S (List.length ds) - 1)%nat with (List.length ds) by lia.
      rewrite nth_middle.
      replace (S (List.length ds)) with (List.length (ds ++ [d]))
        by (rewrite length_app; cbn; lia).
      rewrite firstn_all, lengths_app. cbn [lengths fold_right].
      rewrite Z.add_0_r, Z.add_assoc. reflexivity.
Qed.

(** Keeping one index in a hundred is listing the multiples of 100. *)
Lemma every_hundredth {A} (g : nat -> A) (n : nat) :
  flat_map (fun k => if Z.of_nat k mod 100 =? 0 then [g k] else []) (seq 1 n)
  = map (fun j => g (100 * j)%nat) (seq 1 (n / 100)).
Proof.
  induction n as [|n IH]; [reflexivity|].
  rewrite seq_S, flat_map_app, IH. cbn [flat_map Nat.add]. rewrite app_nil_r.
  pose proof (Nat.div_mod_eq n 100) as Hn.
  pose proof (Nat.mod_upper_bound n 100 ltac:(discriminate)) as Hr.
  pose proof (Nat.div_mod_eq (S n) 100) as Hn'.
  pose proof (Nat.mod_upper_bound (S n) 100 ltac:(discriminate)) as Hr'.
  change 100 with (Z.of_nat 100). rewrite <- Nat2Z.inj_mod.
  destruct (Z.of_nat (S n mod 100) =? 0) eqn:Hm.
  - apply Z.eqb_eq in Hm.
    assert (Hq : (S n / 100 = S (n / 100))%nat) by lia.
    rewrite Hq, seq_S, map_app. cbn [map Nat.add]. do 3 f_equal. lia.
  - apply Z.eqb_neq in Hm.
    assert (Hq : (S n / 100 = n / 100)%nat) by lia.
    rewrite Hq. apply app_nil_r.
Qed.

Lemma Forall_snoc {A} (P : A -> Prop) (l : list A) (x : A) :
  Forall P l -> P x -> Forall P (l ++ [x]).
Proof. intros Hl Hx. apply Forall_app. split; [exact Hl|]. now constructor. Qed.

(** No turn prints a progress line at another count. *)
Lemma iteration_on_cadence (ev : event) (s : state) :
  0 <= packet_count s -> Forall on_cadence (stdout s) ->
  Forall on_cadence (stdout (snd (iteration ev s))) /\
  0 <= packet_count (snd (iteration ev s)).
Proof.
  intros Hc Hout.
  destruct ev as [data addr [|p| |]| |]; try destruct p; split_turn;
    cbn [snd packet_count stdout]; (split; [|lia]);
    repeat apply Forall_snoc; try assumption; try exact I;
    match goal with H : (_ mod 100 =? 0) = true |- _ =>
      apply Z.eqb_eq in H; cbn [on_cadence]; split; [lia | exact H]
    end.
Qed.

Lemma receive_loop_on_cadence (evs : list event) (s : state) :
  0 <= packet_count s -> Forall on_cadence (stdout s) ->
  Forall on_cadence (stdout (snd (receive_loop evs s))).
Proof.
  revert s. induction evs as [|ev evs IH]; intros s Hc Hout; [exact Hout|].
  destruct (iteration_on_cadence ev s Hc Hout) as [Hout' Hc'].
  cbn [receive_loop]. unfold bind.
  destruct (iteration ev s) as [[[]|x|] s1]; cbn [snd] in *;
    [now apply IH | assumption | assumption].
Qed.

Lemma summary_on_cadence (output_file : string) (s : state) :
  Forall on_cadence (summary output_file s).
Proof. unfold summary. repeat constructor. Qed.

(** ** From [main] to the loop and back *)

Lemma main_bind_fails (e : env) (port : Z) (x : exn) :
  port_of e = Return port ->
  fst (sock_bind e port (set_sock Created boot)) = Raise x ->
  main e boot = (Raise x, set_sock Created boot).
Proof.
  intros Hport. unfold main. rewrite Hport.
  unfold bind at 1, lift at 1. unfold bind at 1, socket_socket, modify at 1.
  unfold bind at 1, sock_bind.
  destruct (negb ((0 <=? port) && (port <=? 65535))).
  - cbn. now intros [= <-].
  - destruct (bind_refused e).
    + cbn. now intros [= <-].
    + discriminate.
Qed.

Lemma bind_print {B} (l : line) (k : M B) (out : list line) (s : state) :
  (print l ;; k) (set_stdout out s) = k (set_stdout (out ++ [l]) s).
Proof. reflexivity. Qed.

Lemma bind_get {B} (k : state -> M B) (s : state) :
  (x <- get ;; k x) s = k s s.
Proof. reflexivity. Qed.

Lemma set_stdout_same (s : state) : set_stdout (stdout s) s = s.
Proof. now destruct s. Qed.

Lemma farewell_said (output_file : string) (out : list line) (s : state) :
  farewell output_file (set_stdout out s) =
  (Return tt, set_stdout (out ++ summary output_file s) s).
Proof.
  unfold farewell. rewrite !bind_print, bind_get, !bind_print.
  unfold print, modify, summary.
  change (set_stdout (stdout (set_stdout ?a s) ++ ?b) (set_stdout ?a s))
    with (set_stdout (a ++ b) s).
  repeat rewrite <- app_assoc. reflexivity.
Qed.

Lemma farewell_eq (output_file : string) (s : state) :
  farewell output_file s =
  (Return tt, set_stdout (stdout s ++ summary output_file s) s).
Proof.
  rewrite <- (set_stdout_same s) at 1. apply farewell_said.
Qed.

Section Session.

Variables (e : env) (port : Z).
Hypothesis Hstart : starts e port.
Hypothesis Hopen : open_refused e = false.

Lemma main_starts :
  main e boot = recording e (output_file_of e) (listening e port).
Proof.
  destruct Hstart as (Hport & Hrange & Hbind). unfold main, sock_bind.
  rewrite Hport. unfold bind at 1, lift at 1.
  unfold bind at 1, socket_socket, modify at 1.
  rewrite Hrange, Hbind. reflexivity.
Qed.

Lemma recording_eq :
  recording e (output_file_of e) (listening e port) =
  match receive_loop (events e) (recording_starts e port) with
  | (Raise KeyboardInterrupt, s) =>
      let s1 := leave_with s in
      (Return tt,
       set_sock Closed
         (set_stdout (stdout s1 ++ summary (output_file_of e) s1) s1))
  | (Raise x, s) => (Raise x, set_sock Closed (leave_with s))
  | (Blocked, s) => (Blocked, s)
  | (Return u, s) => (Return u, set_sock Closed (leave_with s))
  end.
Proof.
  unfold recording, with_open. rewrite Hopen.
  cbv [try_finally try_except_KeyboardInterrupt bind modify ret raise
       sock_close].
  fold (recording_starts e port).
  destruct (receive_loop (events e) (recording_starts e port)) as [[[]|x|] s];
    [reflexivity| |reflexivity].
  fold (leave_with s). destruct x; try reflexivity.
  now rewrite farewell_eq.
Qed.

Lemma python3_recording :
  python3 e =
  match receive_loop (events e) (recording_starts e port) with
  | (Raise KeyboardInterrupt, s) =>
      let s1 := leave_with s in
      {| exit_code := Some 0; traceback := None;
         final := set_sock Closed
                    (set_stdout (stdout s1 ++ summary (output_file_of e) s1) s1) |}
  | (Raise x, s) =>
      {| exit_code := Some 1; traceback := Some x;
         final := set_sock Closed (leave_with s) |}
  | (Blocked, s) => {| exit_code := None; traceback := None; final := s |}
  | (Return _, s) =>
      {| exit_code := Some 0; traceback := None;
         final := set_sock Closed (leave_with s) |}
  end.
Proof.
  unfold python3. rewrite main_starts, recording_eq.
  destruct (receive_loop (events e) (recording_starts e port)) as [[[]|x|] s];
    [reflexivity| |reflexivity].
  destruct x; reflexivity.
Qed.

Lemma recording_starts_open : is_open (recording_starts e port) = true.
Proof. reflexivity. Qed.

(** With every datagram handled and nothing more delivered, the process
    is in [recvfrom] again. *)
Lemma python3_waiting (ds : list datagram) :
  events e = arrivals ds ->
  python3 e = {| exit_code := None; traceback := None;
                 final := turns ds (recording_starts e port) |}.
Proof.
  intros Hev. rewrite python3_recording, Hev.
  rewrite <- (app_nil_r (arrivals ds)).
  rewrite receive_loop_arrivals by apply recording_starts_open.
  reflexivity.
Qed.

Lemma python3_on_cadence : Forall on_cadence (stdout (final (python3 e))).
Proof.
  rewrite python3_recording.
  assert (H : Forall on_cadence
                (stdout (snd (receive_loop (events e) (recording_starts e port))))).
  { apply receive_loop_on_cadence; [cbn; lia|].
    cbn. repeat constructor. }
  destruct (receive_loop (events e) (recording_starts e port))
    as [[[]|x|] s]; cbn [snd] in H; [exact H | | exact H].
  destruct x; cbn [final]; unfold leave_with;
    cbn [set_sock set_stdout set_f stdout]; try exact H.
  apply Forall_app. split; [exact H | apply summary_on_cadence].
Qed.

(** The state of the loop after the datagrams [ds]. *)
Lemma loop_state_f (ds : list datagram) :
  f (turns ds (recording_starts e port))
  = Some {| name := output_file_of e; stored := payloads ds; pending := [];
            closed := false |}.
Proof.
  now rewrite (f_turns ds _ {| name := output_file_of e; stored := [];
                               pending := []; closed := false |}).
Qed.

Lemma loop_state_packet_count (ds : list datagram) :
  packet_count (turns ds (recording_starts e port)) = Z.of_nat (List.length ds).
Proof. now rewrite packet_count_turns. Qed.

Lemma loop_state_total_bytes (ds : list datagram) :
  total_bytes (turns ds (recording_starts e port)) = lengths ds.
Proof. now rewrite total_bytes_turns. Qed.

End Session.

Lemma interrupt_state (stop : event) (s : state) (o : file) :
  interrupts stop = true ->
  f s = Some o -> closed o = false -> pending o = [] ->
  exists s',
    iteration stop s = (Raise KeyboardInterrupt, s') /\
    sock s' = sock s /\
    packet_count s' = packet_count s + counted stop /\
    total_bytes s' = total_bytes s + counted_bytes stop /\
    reported_packets (stdout s') = reported_packets (stdout s) /\
    option_map file_close (f s')
    = Some {| name := name o; stored := stored o ++ appended stop;
              pending := []; closed := true |}.
Proof.
  intros Hi Hf Hc Hp.
  assert (Hopen : is_open s = true) by (unfold is_open; now rewrite Hf, Hc).
  destruct stop as [data addr [|p| |]| |]; try discriminate.
  - exists (interrupted_turn (data, addr) p s).
    split; [exact (iteration_signal (data, addr) p s Hopen)|].
    unfold interrupted_turn, counted, counted_bytes, appended.
    cbn [sock packet_count total_bytes f fst]. rewrite Hf.
    cbn [stdout].
    destruct p; cbn [passed rank Nat.ltb Nat.leb option_map andb];
      unfold file_close, file_flush, file_write; cbn [stored pending closed];
      rewrite ?Hp, ?app_nil_r, ?Z.add_0_r; cbn [app]; repeat split;
      destruct (packet_count s =? 0); rewrite ?reported_packets_app;
      cbn; now rewrite ?app_nil_r.
  - exists s. split; [reflexivity|].
    cbn [counted counted_bytes appended]. rewrite Hf, !Z.add_0_r.
    cbn [option_map]. unfold file_close. rewrite Hp, !app_nil_r.
    repeat split.
Qed.

Lemma session_starts (evs : list event) : starts (session evs) 9000.
Proof. repeat split. Qed.

(** Ctrl-C between the count and the write: the summary reports a packet
    that is not in the file. *)
Lemma interrupted_append_is_reported :
  exit_code (python3 early_interrupt) = Some 0 /\
  reported_packets (stdout (final (python3 early_interrupt))) = [1] /\
  artifact (final (python3 early_interrupt)) = Some [].
Proof. vm_compute. repeat split. Qed.

(** * Any session, however it ends *)

Lemma is_open_iteration (ev : event) (s : state) :
  is_open s = true -> is_open (snd (iteration ev s)) = true.
Proof.
  intros Hopen. destruct (is_open_inv s Hopen) as (o & Hf & Hc).
  destruct ev as [data addr [|p| |]| |]; try destruct p; split_turn;
    cbn [snd]; unfold is_open; cbn [f]; rewrite ?Hf;
    cbn [closed file_flush file_write]; now rewrite ?Hc.
Qed.

Lemma iteration_result (ev : event) (s : state) :
  is_open s = true ->
  fst (iteration ev s)
  = if smooth ev then Return tt
    else Raise (if interrupts ev then KeyboardInterrupt else OSError).
Proof.
  intros Hopen. destruct (is_open_inv s Hopen) as (o & Hf & Hc).
  destruct ev as [data addr [|p| |]| |]; try destruct p; split_turn;
    reflexivity.
Qed.

Lemma receive_loop_result (evs : list event) (s : state) :
  is_open s = true ->
  fst (receive_loop evs s)
  = match first_incident evs with
    | None => Blocked
    | Some ev => Raise (if interrupts ev then KeyboardInterrupt else OSError)
    end.
Proof.
  revert s. induction evs as [|ev evs IH]; intros s Hopen; [reflexivity|].
  pose proof (iteration_result ev s Hopen) as Hr.
  pose proof (is_open_iteration ev s Hopen) as Ho.
  cbn [receive_loop]. unfold bind, first_incident. cbn [find].
  destruct (iteration ev s) as [r s1]. cbn [fst snd] in *.
  destruct (smooth ev); subst r; cbn [negb fst]; [now apply IH|reflexivity].
Qed.

(** Once the loop has raised, nothing more is received. *)
Lemma receive_loop_deaf (evs more : list event) (s s' : state) (x : exn) :
  receive_loop evs s = (Raise x, s') ->
  receive_loop (evs ++ more) s = (Raise x, s').
Proof.
  revert s. induction evs as [|ev evs IH]; intros s; [discriminate|].
  cbn [app receive_loop]. unfold bind.
  destruct (iteration ev s) as [[[]|y|] s1]; [apply IH|trivial..].
Qed.

(** A loop still waiting has handled every event. *)
Lemma receive_loop_blocked (evs : list event) (s : state) :
  is_open s = true ->
  fst (receive_loop evs s) = Blocked ->
  exists ds, evs = arrivals ds /\ receive_loop evs s = (Blocked, turns ds s).
Proof.
  revert s. induction evs as [|ev evs IH]; intros s Hopen Hb.
  - exists []. split; reflexivity.
  - pose proof (iteration_result ev s Hopen) as Hr.
    destruct ev as [data addr [|p| |]| |]; cbn [smooth interrupts] in Hr;
      try (cbn [receive_loop] in Hb; unfold bind in Hb;
           destruct (iteration _ s) as [r s1]; cbn [fst] in Hr; subst r;
           discriminate).
    pose proof (iteration_smooth (data, addr) s Hopen) as Hit.
    cbn [fst snd] in Hit.
    cbn [receive_loop] in Hb |- *. unfold bind in Hb |- *.
    rewrite Hit in Hb |- *.
    destruct (IH (turn (data, addr) s) (is_open_turn _ s Hopen) Hb)
      as (ds & -> & Hloop).
    exists ((data, addr) :: ds). split; [reflexivity|exact Hloop].
Qed.

Lemma iteration_sock (ev : event) (s : state) :
  sock (snd (iteration ev s)) = sock s.
Proof.
  destruct ev as [data addr [|p| |]| |]; try destruct p; split_turn;
    reflexivity.
Qed.

Lemma receive_loop_sock (evs : list event) (s : state) :
  sock (snd (receive_loop evs s)) = sock s.
Proof.
  revert s. induction evs as [|ev evs IH]; intros s; [reflexivity|].
  pose proof (iteration_sock ev s) as Hs.
  cbn [receive_loop]. unfold bind.
  destruct (iteration ev s) as [[[]|x|] s1]; cbn [snd] in *;
    [now rewrite IH | assumption | assumption].
Qed.

Lemma receive_loop_open (evs : list event) (s : state) :
  is_open s = true -> is_open (snd (receive_loop evs s)) = true.
Proof.
  revert s. induction evs as [|ev evs IH]; intros s Hopen; [exact Hopen|].
  pose proof (is_open_iteration ev s Hopen) as Ho.
  cbn [receive_loop]. unfold bind.
  destruct (iteration ev s) as [[[]|x|] s1]; cbn [snd] in *;
    [now apply IH | assumption | assumption].
Qed.

Lemma iteration_reported_packets (ev : event) (s : state) :
  reported_packets (stdout (snd (iteration ev s)))
  = reported_packets (stdout s).
Proof.
  destruct ev as [data addr [|p| |]| |]; try destruct p; split_turn;
    cbn [snd stdout]; rewrite ?reported_packets_app; cbn;
    now rewrite ?app_nil_r.
Qed.

Lemma receive_loop_reported_packets (evs : list event) (s : state) :
  reported_packets (stdout (snd (receive_loop evs s)))
  = reported_packets (stdout s).
Proof.
  revert s. induction evs as [|ev evs IH]; intros s; [reflexivity|].
  pose proof (iteration_reported_packets ev s) as Hs.
  cbn [receive_loop]. unfold bind.
  destruct (iteration ev s) as [[[]|x|] s1]; cbn [snd] in *;
    [now rewrite IH | assumption | assumption].
Qed.

(** A turn never adds more to the file than to the byte counter. *)
Lemma iteration_file_behind (ev : event) (s : state) :
  is_open s = true ->
  total_bytes s - len (contents_of s)
  <= total_bytes (snd (iteration ev s)) - len (contents_of (snd (iteration ev s))).
Proof.
  intros Hopen. destruct (is_open_inv s Hopen) as (o & Hf & Hc).
  unfold contents_of at 1. rewrite Hf.
  destruct ev as [data addr [|p| |]| |]; try destruct p; split_turn;
    cbn [snd total_bytes]; unfold contents_of; cbn [f]; rewrite ?Hf;
    unfold contents, file_flush, file_write; cbn [stored pending];
    rewrite ?app_nil_r, ?len_app; try pose proof (len_nonneg data); lia.
Qed.

Lemma receive_loop_file_behind (evs : list event) (s : state) :
  is_open s = true ->
  total_bytes s - len (contents_of s)
  <= total_bytes (snd (receive_loop evs s))
     - len (contents_of (snd (receive_loop evs s))).
Proof.
  revert s. induction evs as [|ev evs IH]; intros s Hopen; [cbn; lia|].
  pose proof (iteration_file_behind ev s Hopen) as Hs.
  pose proof (is_open_iteration ev s Hopen) as Ho.
  cbn [receive_loop]. unfold bind.
  destruct (iteration ev s) as [[[]|x|] s1]; cbn [snd] in *;
    [specialize (IH s1 Ho); lia | assumption | assumption].
Qed.

(** What a turn adds to the file is what it received, or nothing. *)
Lemma iteration_contents (ev : event) (s : state) :
  is_open s = true ->
  (fst (iteration ev s) = Return tt /\
   contents_of (snd (iteration ev s)) = contents_of s ++ data_of ev) \/
  (fst (iteration ev s) <> Return tt /\
   (contents_of (snd (iteration ev s)) = contents_of s \/
    contents_of (snd (iteration ev s)) = contents_of s ++ data_of ev)).
Proof.
  intros Hopen. destruct (is_open_inv s Hopen) as (o & Hf & Hc).
  unfold contents_of at 2 4 6. rewrite Hf.
  destruct ev as [data addr [|p| |]| |]; try destruct p; split_turn;
    cbn [fst snd data_of]; unfold contents_of; cbn [f]; rewrite ?Hf;
    unfold contents, file_flush, file_write; cbn [stored pending];
    rewrite ?app_nil_r, <- ?app_assoc;
    first [ left; split; reflexivity
          | right; split; [discriminate|]; (now left) || (now right) ].
Qed.

Lemma receive_loop_contents (evs : list event) (s : state) :
  is_open s = true ->
  exists w rest,
    contents_of (snd (receive_loop evs s)) = contents_of s ++ w /\
    received evs = w ++ rest.
Proof.
  revert s. induction evs as [|ev evs IH]; intros s Hopen.
  - exists [], []. split; [cbn; now rewrite app_nil_r|reflexivity].
  - pose proof (is_open_iteration ev s Hopen) as Ho.
    change (received (ev :: evs)) with (data_of ev ++ received evs).
    cbn [receive_loop]. unfold bind.
    destruct (iteration_contents ev s Hopen) as [[Hr Hc] | [Hr [Hc | Hc]]];
      destruct (iteration ev s) as [[[]|x|] s1]; cbn [fst snd] in *;
      try discriminate; try congruence.
    + destruct (IH s1 Ho) as (w & rest & Hw & Hrest).
      exists (data_of ev ++ w), rest. split.
      * now rewrite Hw, Hc, app_assoc.
      * now rewrite Hrest, app_assoc.
    + exists [], (data_of ev ++ received evs).
      split; [now rewrite Hc, app_nil_r|reflexivity].
    + exists [], (data_of ev ++ received evs).
      split; [now rewrite Hc, app_nil_r|reflexivity].
    + exists (data_of ev), (received evs). split; [exact Hc|reflexivity].
    + exists (data_of ev), (received evs). split; [exact Hc|reflexivity].
Qed.

Lemma iteration_bufsize (ev : event) (s : state) :
  len (data_of ev) <= 65535 ->
  total_bytes s <= 65535 * packet_count s ->
  total_bytes (snd (iteration ev s)) <= 65535 * packet_count (snd (iteration ev s)).
Proof.
  intros Hd Hs.
  destruct ev as [data addr [|p| |]| |]; try destruct p; split_turn;
    cbn [snd total_bytes packet_count data_of] in *; lia.
Qed.

Lemma receive_loop_bufsize (evs : list event) (s : state) :
  within_bufsize evs = true ->
  total_bytes s <= 65535 * packet_count s ->
  total_bytes (snd (receive_loop evs s))
  <= 65535 * packet_count (snd (receive_loop evs s)).
Proof.
  revert s. induction evs as [|ev evs IH]; intros s Hb Hs; [exact Hs|].
  cbn [within_bufsize forallb] in Hb. apply andb_prop in Hb.
  destruct Hb as [Hev Hb]. apply Z.leb_le in Hev.
  pose proof (iteration_bufsize ev s Hev Hs) as H1.
  cbn [receive_loop]. unfold bind.
  destruct (iteration ev s) as [[[]|x|] s1]; cbn [snd] in *;
    [now apply IH | assumption | assumption].
Qed.

Lemma received_arrivals (ds : list datagram) : received (arrivals ds) = payloads ds.
Proof.
  unfold received, arrivals, payloads. rewrite map_map. reflexivity.
Qed.

Lemma main_open_fails (e : env) (port : Z) :
  starts e port -> open_refused e = true ->
  main e boot = (Raise OSError, set_sock Closed (listening e port)).
Proof.
  intros Hstart Hopen. rewrite (main_starts e port Hstart).
  unfold recording, with_open. rewrite Hopen. reflexivity.
Qed.

Lemma starts_with_events (e : env) (port : Z) (evs : list event) :
  starts e port -> starts (with_events e evs) port.
Proof. intros H. exact H. Qed.

Lemma iteration_counts (ev : event) (s : state) :
  is_open s = true ->
  if smooth ev
  then packet_count (snd (iteration ev s)) = packet_count s + 1
  else packet_count s <= packet_count (snd (iteration ev s)) <= packet_count s + 1.
Proof.
  intros Hopen. destruct (is_open_inv s Hopen) as (o & Hf & Hc).
  destruct ev as [data addr [|p| |]| |]; try destruct p; cbn [smooth];
    split_turn; cbn [snd packet_count]; lia.
Qed.

Lemma receive_loop_counts (evs : list event) (s : state) :
  is_open s = true ->
  packet_count s + Z.of_nat (handled evs)
  <= packet_count (snd (receive_loop evs s))
  <= packet_count s + Z.of_nat (handled evs) + 1.
Proof.
  revert s. induction evs as [|ev evs IH]; intros s Hopen; [cbn; lia|].
  pose proof (iteration_counts ev s Hopen) as Hc.
  pose proof (iteration_result ev s Hopen) as Hr.
  pose proof (is_open_iteration ev s Hopen) as Ho.
  cbn [receive_loop handled]. unfold bind.
  destruct (iteration ev s) as [r s1]. cbn [fst snd] in *.
  destruct (smooth ev); subst r.
  - specialize (IH s1 Ho). lia.
  - cbn [snd handled]. lia.
Qed.

(** A turn that does not run to its end prints no progress line. *)
Lemma iteration_incident_silent (ev : event) (s : state) :
  smooth ev = false ->
  progress (stdout (snd (iteration ev s))) = progress (stdout s).
Proof.
  intros Hev.
  destruct ev as [data addr [|p| |]| |]; try destruct p; try discriminate;
    split_turn; cbn [snd stdout]; rewrite ?progress_app; cbn;
    now rewrite ?app_nil_r.
Qed.

Lemma receive_loop_progress (evs : list event) (s : state) :
  is_open s = true ->
  progress (stdout (snd (receive_loop evs s)))
  = progress (stdout (turns (smooth_prefix evs) s)).
Proof.
  revert s. induction evs as [|ev evs IH]; intros s Hopen; [reflexivity|].
  destruct (smooth ev) eqn:Hev.
  - destruct ev as [data addr [|p| |]| |]; try discriminate.
    pose proof (iteration_smooth (data, addr) s Hopen) as Hit.
    cbn [fst snd] in Hit.
    cbn [receive_loop smooth_prefix turns fold_left]. unfold bind.
    rewrite Hit. apply IH. now apply (is_open_turn (data, addr)).
  - pose proof (iteration_incident_silent ev s Hev) as Hsilent.
    pose proof (iteration_result ev s Hopen) as Hr. rewrite Hev in Hr.
    replace (smooth_prefix (ev :: evs)) with (@nil datagram)
      by (destruct ev as [data addr [|p| |]| |]; (discriminate || reflexivity)).
    cbn [receive_loop turns fold_left]. unfold bind.
    destruct (iteration ev s) as [r s1]. cbn [fst snd] in *. now subst r.
Qed.

(** * The receiver against its specification *)

(** C1 does not hold as stated. The three datagrams of 10, 20 and 5 bytes
    arrive and are handled, a fourth of 7 bytes arrives and Ctrl-C comes
    just before its [f.write]: the shutdown is the graceful one (exit code
    0), the socket has delivered 4 datagrams and 42 bytes, the file holds
    35, and the summary reports 4 packets. *)
Lemma interrupted_turn_is_not_recorded :
  exit_code (python3 late_session) = Some 0 /\
  len (received (events late_session)) = 42 /\
  artifact (final (python3 late_session)) = Some (payloads three) /\
  len (payloads three) = 35 /\
  reported_packets (stdout (final (python3 late_session))) = [4].
Proof. vm_compute. repeat split. Qed.

(** C1, as the script has it. A session in which the datagrams [ds] arrive
    and are each handled to the end of their turn, and Ctrl-C then comes
    while the receiver waits in [recvfrom]: the process exits with code 0;
    the file named at line 28 is closed and holds exactly the payloads,
    in the order of arrival; its length is the sum of their lengths; cut
    at those lengths it gives back each payload; and the summary reports
    [length ds] packets. *)
Theorem session_recorded (e : env) (port : Z) (ds : list datagram) :
  starts e port -> open_refused e = false ->
  events e = arrivals ds ++ [RecvInterrupted] ->
  exit_code (python3 e) = Some 0 /\
  f (final (python3 e))
  = Some {| name := ("stream_" ++ stamp e ++ ".h264")%string; stored := payloads ds;
            pending := []; closed := true |} /\
  len (payloads ds) = lengths ds /\
  split_by (map (fun d => List.length (fst d)) ds) (payloads ds) = map fst ds /\
  reported_packets (stdout (final (python3 e))) = [Z.of_nat (List.length ds)].
Proof.
  intros Hstart Hopen Hev.
  rewrite (python3_recording e port Hstart Hopen), Hev.
  rewrite receive_loop_arrivals by apply recording_starts_open.
  rewrite (receive_loop_raises _ _ _ _ _ (iteration_interrupted _)).
  cbn [exit_code final]. unfold leave_with.
  cbn [set_sock set_stdout set_f f stdout packet_count total_bytes].
  rewrite loop_state_f.
  repeat split.
  - cbn [option_map]. unfold file_close. cbn [name stored pending].
    now rewrite app_nil_r.
  - apply len_payloads.
  - apply split_by_payloads.
  - rewrite reported_packets_app, reported_packets_turns.
    rewrite reported_packets_summary. cbn [packet_count set_f].
    now rewrite loop_state_packet_count.
Qed.

Lemma session_recorded_witness :
  starts stopped_session 9000 /\
  exit_code (python3 stopped_session) = Some 0 /\
  f (final (python3 stopped_session))
  = Some {| name := "stream_20250101_101500.h264"; stored := payloads three;
            pending := []; closed := true |} /\
  len (payloads three) = 35 /\
  reported_packets (stdout (final (python3 stopped_session))) = [3].
Proof.
  split; [apply session_starts|].
  destruct (session_recorded stopped_session 9000 three
              (session_starts _) eq_refl eq_refl)
    as (H1 & H2 & H3 & _ & H5).
  split; [exact H1 | split; [exact H2 | split; [exact H3 | exact H5]]].
Defined.

(** C2 does not hold as stated: one datagram of 10 bytes whose write fails
    leaves an empty file, and counters that include it. *)
Lemma failed_append_is_counted :
  traceback (python3 failed_write) = Some OSError /\
  artifact (final (python3 failed_write)) = Some [] /\
  packet_count (final (python3 failed_write)) = 1 /\
  total_bytes (final (python3 failed_write)) = 10.
Proof. vm_compute. repeat split. Qed.

(** C2, as the script has it. The counters are updated before the payload is
    appended: when [f.write] fails, when [f.flush] fails, and when Ctrl-C
    arrives just before the write, the turn ends with the packet counted
    and its length added while the file holds what it held; a turn
    without incident has the same counters and the payload at the end of
    the file. *)
Theorem counted_before_append (data : bytes) (addr : address) (s : state) :
  is_open s = true ->
  let failed := iteration (Recv data addr WriteFails) s in
  let unflushed := iteration (Recv data addr FlushFails) s in
  let early := iteration (Recv data addr (Signal BeforeWrite)) s in
  let done := iteration (Recv data addr Smooth) s in
  fst failed = Raise OSError /\
  packet_count (snd failed) = packet_count s + 1 /\
  total_bytes (snd failed) = total_bytes s + len data /\
  f (snd failed) = f s /\
  fst unflushed = Raise OSError /\
  packet_count (snd unflushed) = packet_count s + 1 /\
  total_bytes (snd unflushed) = total_bytes s + len data /\
  option_map stored (f (snd unflushed)) = option_map stored (f s) /\
  fst early = Raise KeyboardInterrupt /\
  packet_count (snd early) = packet_count s + 1 /\
  total_bytes (snd early) = total_bytes s + len data /\
  f (snd early) = f s /\
  fst done = Return tt /\
  packet_count (snd done) = packet_count s + 1 /\
  total_bytes (snd done) = total_bytes s + len data /\
  option_map contents (f (snd done))
  = option_map (fun o => contents o ++ data) (f s).
Proof.
  intros Hopen. destruct (is_open_inv s Hopen) as (o & Hf & Hc).
  cbn zeta.
  pose proof (iteration_smooth (data, addr) s Hopen) as Hs.
  pose proof (iteration_signal (data, addr) BeforeWrite s Hopen) as Hi.
  cbn [fst snd] in Hs, Hi. rewrite Hs, Hi.
  unfold turn, interrupted_turn.
  cbn [fst snd packet_count total_bytes f passed rank Nat.ltb Nat.leb].
  rewrite Hf. cbn [option_map]. unfold contents, file_flush, file_write.
  cbn [stored pending]. rewrite app_nil_r, app_assoc.
  repeat split;
    destruct (packet_count s =? 0) eqn:?; split_turn; reflexivity.
Qed.

Lemma counted_before_append_witness :
  is_open (recording_starts (session []) 9000) = true /\
  packet_count
    (snd (iteration (Recv (sample 10) camera WriteFails)
            (recording_starts (session []) 9000))) = 1.
Proof.
  split; [reflexivity|].
  exact (proj1 (proj2
    (counted_before_append (sample 10) camera
       (recording_starts (session []) 9000) eq_refl))).
Defined.

(** C3 does not hold as stated. One datagram of 10 bytes has been handled
    and the receiver is back in [recvfrom]: the bytes are with the
    operating system, where the death of the process leaves them, but
    nothing has forced them to the device ([f.flush] is all the script
    calls), and if the machine stops before the system writes them back
    the file is empty. *)
Lemma flushed_is_not_durable :
  exit_code (python3 one_handled) = None /\
  option_map after_kill (f (final (python3 one_handled))) = Some (sample 10) /\
  option_map (after_power_loss 0) (f (final (python3 one_handled))) = Some [].
Proof. vm_compute. repeat split. Qed.

(** C3, as the script has it. After the datagrams [ds] and one more, when
    the receiver is back in [recvfrom]: the payload just handled is at the
    end of what the file holds, after those of [ds], and nothing is left
    in the buffer of the file object, so the death of the process at that
    point loses none of it. The state reached is the one from which
    whatever arrives next is handled. *)
Theorem flushed_before_next_receive
    (e : env) (port : Z) (ds : list datagram) (data : bytes) (addr : address) :
  starts e port -> open_refused e = false ->
  events e = arrivals (ds ++ [(data, addr)]) ->
  let s := final (python3 e) in
  exit_code (python3 e) = None /\
  f s = Some {| name := ("stream_" ++ stamp e ++ ".h264")%string; stored := payloads ds ++ data;
                pending := []; closed := false |} /\
  option_map after_kill (f s) = Some (payloads ds ++ data) /\
  (forall more,
     receive_loop (events e ++ more) (recording_starts e port)
     = receive_loop more s).
Proof.
  intros Hstart Hopen Hev.
  rewrite (python3_waiting e port Hstart Hopen _ Hev). cbn zeta.
  cbn [exit_code final]. rewrite loop_state_f, payloads_app, payloads_one.
  repeat split.
  intros more. rewrite Hev.
  apply receive_loop_arrivals, recording_starts_open.
Qed.

Lemma flushed_before_next_receive_witness :
  starts (session (arrivals (three ++ [(sample 7, camera)]))) 9000 /\
  option_map after_kill
    (f (final (python3 (session (arrivals (three ++ [(sample 7, camera)]))))))
  = Some (payloads three ++ sample 7).
Proof.
  split; [apply session_starts|].
  exact (proj1 (proj2 (proj2
    (flushed_before_next_receive
       (session (arrivals (three ++ [(sample 7, camera)]))) 9000 three
       (sample 7) camera (session_starts _) eq_refl eq_refl)))).
Defined.



(** C5 does not hold as stated. 99 datagrams are handled, and Ctrl-C comes
    in the turn of the hundredth after its [f.flush], just before line
    50: the packet count is 100, the hundredth payload is in the file,
    and no progress line has been printed. *)
Lemma cut_hundredth_prints_nothing :
  exit_code (python3 hundred_cut) = Some 0 /\
  packet_count (final (python3 hundred_cut)) = 100 /\
  option_map len (artifact (final (python3 hundred_cut))) = Some 400 /\
  progress (stdout (final (python3 hundred_cut))) = [].
Proof. vm_compute. repeat split. Qed.

(** C5, as the script has it. In every session a progress line shows a
    positive multiple of 100 as its packet count, and the progress lines
    printed are those of the turns that ran to their end and brought the
    count to 100, 200, ..., in that order and nothing else: with [ds] the
    datagrams handled before the first interrupt or failure, line [j]
    shows the count [100 * j], the bytes of the first [100 * j] payloads
    over 1024 * 1024, and the length of payload [100 * j]. A turn cut
    short prints none. *)
Theorem progress_every_hundredth (e : env) (port : Z) :
  starts e port -> open_refused e = false ->
  Forall on_cadence (stdout (final (python3 e))) /\
  progress (stdout (final (python3 e)))
  = map (fun j => progress_line (smooth_prefix (events e)) (100 * j))
        (seq 1 (List.length (smooth_prefix (events e)) / 100)).
Proof.
  intros Hstart Hopen. split; [now apply (python3_on_cadence e port)|].
  rewrite (python3_recording e port Hstart Hopen).
  pose proof (receive_loop_progress (events e) (recording_starts e port)
                (recording_starts_open e port)) as Hp.
  rewrite progress_turns in Hp.
  cbn [recording_starts set_f listening stdout packet_count total_bytes
       progress filter is_stats app] in Hp.
  cbn [Z.add] in Hp. rewrite every_hundredth in Hp.
  destruct (receive_loop (events e) (recording_starts e port))
    as [[[]|x|] s]; cbn [snd] in Hp; cbn [final].
  - exact Hp.
  - destruct x; cbn [final]; unfold leave_with;
      cbn [set_sock set_stdout set_f stdout];
      rewrite ?progress_app, ?progress_summary, ?app_nil_r; exact Hp.
  - exact Hp.
Qed.

Lemma progress_every_hundredth_witness :
  starts (session (arrivals burst)) 9000 /\
  progress (stdout (final (python3 (session (arrivals burst)))))
  = [Stats 100 (Qmake 400 1048576) 4; Stats 200 (Qmake 800 1048576) 4].
Proof.
  split; [apply session_starts|].
  exact (proj2 (progress_every_hundredth (session (arrivals burst)) 9000
                  (session_starts _) eq_refl)).
Defined.

(** C6. When [sock.bind] raises, the exception leaves [main]: the
    interpreter prints its traceback and exits with code 1, and no file
    has been created (nor anything printed on the standard output). *)
Theorem bind_failure_is_fatal (e : env) (port : Z) (x : exn) :
  port_of e = Return port ->
  fst (sock_bind e port (set_sock Created boot)) = Raise x ->
  exit_code (python3 e) = Some 1 /\
  traceback (python3 e) = Some x /\
  sock (final (python3 e)) = Created /\
  f (final (python3 e)) = None /\
  stdout (final (python3 e)) = [].
Proof.
  intros Hport Hbind. unfold python3.
  rewrite (main_bind_fails e port x Hport Hbind). repeat split.
Qed.

Lemma bind_failure_is_fatal_witness :
  fst (sock_bind refused_port 8888 (set_sock Created boot)) = Raise OSError /\
  exit_code (python3 refused_port) = Some 1 /\
  f (final (python3 refused_port)) = None.
Proof.
  split; [reflexivity|].
  destruct (bind_failure_is_fatal refused_port 8888 OSError eq_refl eq_refl)
    as (H1 & _ & _ & H4 & _).
  split; [exact H1 | exact H4].
Defined.

(** C7. Ctrl-C after the datagrams [ds], while the receiver waits or at any
    point of the turn that handles one more datagram, whatever would have
    arrived afterwards: the process exits with code 0 and no traceback,
    the socket is closed, the file opened under the name of line 28 is
    closed with nothing left in the buffer and holds the payloads of [ds]
    followed by the payload of the interrupted turn exactly when its
    [f.write] had run, and the last lines printed are the summary: the
    packet count, the bytes counted over 1024 * 1024, the name of that
    file, and the two commands to play it. *)
Theorem interrupt_ends_session
    (e : env) (port : Z) (ds : list datagram) (stop : event) (rest : list event) :
  starts e port -> open_refused e = false ->
  events e = arrivals ds ++ stop :: rest ->
  interrupts stop = true ->
  let s := final (python3 e) in
  let output_file := ("stream_" ++ stamp e ++ ".h264")%string in
  let packets := Z.of_nat (List.length ds) + counted stop in
  let total := lengths ds + counted_bytes stop in
  exit_code (python3 e) = Some 0 /\
  traceback (python3 e) = None /\
  sock s = Closed /\
  f s = Some {| name := output_file; stored := payloads ds ++ appended stop;
                pending := []; closed := true |} /\
  len (payloads ds ++ appended stop) = lengths ds + len (appended stop) /\
  packet_count s = packets /\
  total_bytes s = total /\
  exists seen,
    stdout s
    = seen ++ [DoubleRule; Stopped; TotalPackets packets;
               TotalData (Qmake total 1048576); SavedTo output_file;
               DoubleRule; ToPlay; Ffplay output_file; Or; Vlc output_file] /\
    reported_packets seen = [].
Proof.
  intros Hstart Hopen Hev Hstop.
  rewrite (python3_recording e port Hstart Hopen), Hev.
  rewrite receive_loop_arrivals by apply recording_starts_open.
  destruct (interrupt_state stop _ _ Hstop (loop_state_f e port ds)
              eq_refl eq_refl) as (s' & Hit & Hsock & Hpc & Htb & Hrp & Hf).
  rewrite (receive_loop_raises _ rest _ _ _ Hit).
  cbn zeta. cbn [exit_code traceback final]. unfold leave_with.
  cbn [set_sock set_stdout set_f sock f stdout packet_count total_bytes].
  rewrite Hf, Hpc, Htb, loop_state_packet_count, loop_state_total_bytes.
  cbn [name stored]. rewrite len_app, len_payloads.
  repeat split.
  exists (stdout s'). split.
  - unfold summary, set_f. cbn [packet_count total_bytes].
    now rewrite Hpc, Htb, loop_state_packet_count, loop_state_total_bytes.
  - now rewrite Hrp, reported_packets_turns.
Qed.

Lemma interrupt_ends_session_witness :
  interrupts cut_short = true /\
  exit_code (python3 cut_session) = Some 0 /\
  f (final (python3 cut_session))
  = Some {| name := "stream_20250101_101500.h264";
            stored := payloads three ++ sample 5; pending := [];
            closed := true |} /\
  exists seen,
    stdout (final (python3 cut_session))
    = seen ++ [DoubleRule; Stopped; TotalPackets 4;
               TotalData (Qmake 40 1048576);
               SavedTo "stream_20250101_101500.h264";
               DoubleRule; ToPlay; Ffplay "stream_20250101_101500.h264"; Or;
               Vlc "stream_20250101_101500.h264"] /\
    reported_packets seen = [].
Proof.
  split; [reflexivity|].
  destruct (interrupt_ends_session cut_session 9000 three cut_short
              (arrivals three) (session_starts _) eq_refl eq_refl eq_refl)
    as (H1 & _ & _ & H4 & _ & _ & _ & H8).
  split; [exact H1 | split; [exact H4 | exact H8]].
Defined.

(** C8. Whatever the session receives, and from whatever addresses, the
    "Connected from" lines printed are: one, with the address of the first
    datagram received (unless Ctrl-C cuts that turn short before it gets
    to line 39), and none when the session receives nothing. *)
Theorem sender_announced_once (e : env) (port : Z) :
  starts e port -> open_refused e = false ->
  senders (stdout (final (python3 e))) = first_sender (events e).
Proof.
  intros Hstart Hopen.
  rewrite (python3_recording e port Hstart Hopen).
  pose proof (receive_loop_senders (events e) (recording_starts e port)
                eq_refl) as H.
  destruct (receive_loop (events e) (recording_starts e port))
    as [[[]|x|] s]; cbn [snd] in H.
  - exact H.
  - destruct x; cbn [final]; unfold leave_with;
      cbn [set_sock set_stdout set_f stdout];
      rewrite ?senders_app, ?senders_summary, ?app_nil_r; exact H.
  - exact H.
Qed.

Lemma sender_announced_once_witness :
  starts stopped_session 9000 /\
  senders (stdout (final (python3 stopped_session))) = [camera].
Proof.
  split; [apply session_starts|].
  exact (sender_announced_once stopped_session 9000 (session_starts _) eq_refl).
Defined.

(** C9. When there is a first argument and [int] raises [ValueError] on it,
    the exception leaves [main] at line 13: the interpreter exits with
    code 1 on that [ValueError] and nothing has happened, no socket, no
    bind, no file, no output, whatever the system and the network would
    have done. *)
Theorem bad_port_argument (e : env) (prog a : string) (rest : list string) :
  argv e = prog :: a :: rest ->
  int_argv1 e = Raise ValueError ->
  exit_code (python3 e) = Some 1 /\
  traceback (python3 e) = Some ValueError /\
  final (python3 e) = boot.
Proof.
  intros Hargv Hint. unfold python3, main, port_of.
  rewrite Hargv, Hint. repeat split.
Qed.

Lemma bad_port_argument_witness :
  argv misspelt_port = ["test_receiver.py"; "eighty"]%string /\
  exit_code (python3 misspelt_port) = Some 1 /\
  final (python3 misspelt_port) = boot.
Proof.
  split; [reflexivity|].
  destruct (bad_port_argument misspelt_port "test_receiver.py" "eighty" []
              eq_refl eq_refl) as (H1 & _ & H3).
  split; [exact H1 | exact H3].
Defined.

(** C10. A turn that receives an empty datagram runs to its end: the packet
    counter goes up by one, the byte counter stays, the file holds what it
    held (the very same file object state when nothing was buffered), and
    the progress line is printed exactly when the new count is a multiple
    of 100, showing 0 as the size of the packet. *)
Theorem empty_datagram (addr : address) (s : state) :
  is_open s = true ->
  let s' := snd (iteration (Recv [] addr Smooth) s) in
  fst (iteration (Recv [] addr Smooth) s) = Return tt /\
  packet_count s' = packet_count s + 1 /\
  total_bytes s' = total_bytes s /\
  option_map contents (f s') = option_map contents (f s) /\
  (forall o, f s = Some o -> pending o = [] -> f s' = Some o) /\
  progress (stdout s')
  = progress (stdout s)
    ++ (if (packet_count s + 1) mod 100 =? 0
        then [Stats (packet_count s + 1) (megabytes (total_bytes s)) 0]
        else []).
Proof.
  intros Hopen. cbn zeta.
  pose proof (iteration_smooth ([], addr) s Hopen) as Hit.
  cbn [fst snd] in Hit. rewrite Hit. cbn [fst snd].
  unfold turn. cbn [fst snd packet_count total_bytes f stdout].
  change (len []) with 0. rewrite Z.add_0_r.
  destruct (is_open_inv s Hopen) as (o & Hf & Hc). rewrite Hf.
  cbn [option_map]. unfold contents, file_flush, file_write.
  cbn [stored pending closed]. rewrite !app_nil_r.
  repeat split.
  - intros o' [= <-] Hp. destruct o as [st pe cl]. cbn in *. subst.
    now rewrite app_nil_r.
  - rewrite !progress_app.
    destruct (packet_count s =? 0), ((packet_count s + 1) mod 100 =? 0);
      cbn; now rewrite ?app_nil_r.
Qed.

Lemma empty_datagram_witness :
  is_open ninety_nine = true /\
  progress (stdout (snd (iteration (Recv [] camera Smooth) ninety_nine)))
  = [Stats 100 (megabytes 396) 0].
Proof.
  split; [reflexivity|].
  exact (proj2 (proj2 (proj2 (proj2 (proj2
    (empty_datagram camera ninety_nine eq_refl)))))).
Defined.

(** * Further properties of the script *)

(** X1. Once the socket is bound and the file open, how the process ends is
    decided by the first event that is not a datagram handled without
    incident: with none the process is still waiting in [recvfrom]; an
    interrupt gives exit code 0 and no traceback; a failure of
    [recvfrom], [f.write] or [f.flush] gives exit code 1 and the
    traceback of an [OSError]. Whatever is delivered after that event
    changes nothing. *)
Theorem exit_decided_by_first_incident (e : env) (port : Z) :
  starts e port -> open_refused e = false ->
  exit_code (python3 e)
  = match first_incident (events e) with
    | None => None
    | Some ev => Some (if interrupts ev then 0 else 1)
    end /\
  traceback (python3 e)
  = match first_incident (events e) with
    | None => None
    | Some ev => if interrupts ev then None else Some OSError
    end /\
  (forall more,
     first_incident (events e) <> None ->
     python3 (with_events e (events e ++ more)) = python3 e).
Proof.
  intros Hstart Hopen.
  pose proof (receive_loop_result (events e) (recording_starts e port)
                (recording_starts_open e port)) as Hr.
  split; [|split].
  - rewrite (python3_recording e port Hstart Hopen).
    destruct (receive_loop (events e) (recording_starts e port)) as [r s].
    cbn [fst] in Hr. subst r.
    destruct (first_incident (events e)) as [ev|]; [|reflexivity].
    destruct (interrupts ev); reflexivity.
  - rewrite (python3_recording e port Hstart Hopen).
    destruct (receive_loop (events e) (recording_starts e port)) as [r s].
    cbn [fst] in Hr. subst r.
    destruct (first_incident (events e)) as [ev|]; [|reflexivity].
    destruct (interrupts ev); reflexivity.
  - intros more Hinc.
    rewrite (python3_recording e port Hstart Hopen).
    rewrite (python3_recording (with_events e (events e ++ more)) port
               (starts_with_events e port _ Hstart) Hopen).
    change (events (with_events e (events e ++ more))) with (events e ++ more).
    change (recording_starts (with_events e (events e ++ more)) port)
      with (recording_starts e port).
    change (output_file_of (with_events e (events e ++ more)))
      with (output_file_of e).
    destruct (receive_loop (events e) (recording_starts e port))
      as [r s] eqn:Hloop.
    cbn [fst] in Hr. subst r.
    destruct (first_incident (events e)) as [ev|]; [|congruence].
    now rewrite (receive_loop_deaf _ more _ _ _ Hloop).
Qed.

Lemma exit_decided_by_first_incident_witness :
  starts failed_write 9000 /\
  exit_code (python3 failed_write) = Some 1 /\
  traceback (python3 failed_write) = Some OSError /\
  python3 (with_events failed_write (events failed_write ++ arrivals three))
  = python3 failed_write.
Proof.
  split; [apply session_starts|].
  destruct (exit_decided_by_first_incident failed_write 9000
              (session_starts _) eq_refl) as (H1 & H2 & H3).
  split; [exact H1 | split; [exact H2 | apply H3; discriminate]].
Defined.

(** X2. When [open] fails the exception is not the one the [except] clause
    takes: the [finally] clause closes the socket, the interpreter exits
    with code 1 on an [OSError], and only the banner has been printed; no
    file exists and no datagram has been counted, whatever the socket
    would have delivered. *)
Theorem open_failure_is_fatal (e : env) (port : Z) :
  starts e port -> open_refused e = true ->
  exit_code (python3 e) = Some 1 /\
  traceback (python3 e) = Some OSError /\
  sock (final (python3 e)) = Closed /\
  f (final (python3 e)) = None /\
  stdout (final (python3 e)) = stdout (listening e port) /\
  packet_count (final (python3 e)) = 0.
Proof.
  intros Hstart Hopen. unfold python3.
  rewrite (main_open_fails e port Hstart Hopen). repeat split.
Qed.

Lemma open_failure_is_fatal_witness :
  starts no_file 9000 /\
  exit_code (python3 no_file) = Some 1 /\
  sock (final (python3 no_file)) = Closed /\
  f (final (python3 no_file)) = None.
Proof.
  split; [repeat split|].
  destruct (open_failure_is_fatal no_file 9000 ltac:(repeat split) eq_refl)
    as (H1 & _ & H3 & H4 & _).
  split; [exact H1 | split; [exact H3 | exact H4]].
Defined.

(** X3. The "Total packets" line is printed exactly in the sessions that end
    with exit code 0, once, with the final value of the packet counter; a
    session that dies of a failure, or is still running, has printed
    none. *)
Theorem summary_only_on_interrupt (e : env) (port : Z) :
  starts e port ->
  reported_packets (stdout (final (python3 e)))
  = match exit_code (python3 e) with
    | Some 0 => [packet_count (final (python3 e))]
    | _ => []
    end.
Proof.
  intros Hstart. destruct (open_refused e) eqn:Hopen.
  - unfold python3. now rewrite (main_open_fails e port Hstart Hopen).
  - rewrite (python3_recording e port Hstart Hopen).
    pose proof (receive_loop_reported_packets (events e)
                  (recording_starts e port)) as Hrp.
    pose proof (receive_loop_no_return (events e) (recording_starts e port)) as Hnr.
    destruct (receive_loop (events e) (recording_starts e port))
      as [[[]|x|] s]; cbn [snd] in Hrp.
    + now elim (Hnr s tt).
    + destruct x; cbn [exit_code final]; unfold leave_with;
        cbn [set_sock set_stdout set_f stdout packet_count];
        rewrite ?reported_packets_app, ?reported_packets_summary, Hrp;
        reflexivity.
    + exact Hrp.
Qed.

Lemma summary_only_on_interrupt_witness :
  starts failed_write 9000 /\
  reported_packets (stdout (final (python3 failed_write))) = [] /\
  reported_packets (stdout (final (python3 stopped_session))) = [3].
Proof.
  split; [apply session_starts|].
  split.
  - exact (summary_only_on_interrupt failed_write 9000 (session_starts _)).
  - exact (summary_only_on_interrupt stopped_session 9000 (session_starts _)).
Defined.

(** X4. Once the socket is bound it stays bound to the port as long as the
    process runs, and it has been closed whenever the process has
    exited, by an interrupt or by a failure, of [open] included. *)
Theorem socket_closed_on_exit (e : env) (port : Z) :
  starts e port ->
  sock (final (python3 e))
  = match exit_code (python3 e) with
    | None => Bound port
    | Some _ => Closed
    end.
Proof.
  intros Hstart. destruct (open_refused e) eqn:Hopen.
  - unfold python3. now rewrite (main_open_fails e port Hstart Hopen).
  - rewrite (python3_recording e port Hstart Hopen).
    pose proof (receive_loop_sock (events e) (recording_starts e port)) as Hs.
    destruct (receive_loop (events e) (recording_starts e port))
      as [[[]|x|] s]; cbn [snd] in Hs; try reflexivity.
    + destruct x; reflexivity.
    + exact Hs.
Qed.

Lemma socket_closed_on_exit_witness :
  starts failed_write 9000 /\
  sock (final (python3 failed_write)) = Closed /\
  sock (final (python3 (session (arrivals three)))) = Bound 9000.
Proof.
  split; [apply session_starts|].
  split.
  - exact (socket_closed_on_exit failed_write 9000 (session_starts _)).
  - exact (socket_closed_on_exit (session (arrivals three)) 9000
             (session_starts _)).
Defined.

(** X5. Whenever the process has exited, the file has been closed with
    nothing left in the buffer of the file object; while the process
    waits in [recvfrom] the file is open and the buffer is empty too. *)
Theorem file_closed_on_exit (e : env) (port : Z) :
  starts e port -> open_refused e = false ->
  exists o,
    f (final (python3 e)) = Some o /\
    pending o = [] /\
    closed o = match exit_code (python3 e) with
               | None => false
               | Some _ => true
               end.
Proof.
  intros Hstart Hopen. rewrite (python3_recording e port Hstart Hopen).
  pose proof (receive_loop_open (events e) (recording_starts e port)
                (recording_starts_open e port)) as Ho.
  pose proof (receive_loop_blocked (events e) (recording_starts e port)
                (recording_starts_open e port)) as Hb.
  destruct (receive_loop (events e) (recording_starts e port))
    as [[[]|x|] s]; cbn [fst snd] in *.
  - destruct (is_open_inv s Ho) as (o & Hf & _).
    exists (file_close o). cbn [final exit_code]. unfold leave_with.
    cbn [set_sock set_f f]. rewrite Hf. repeat split.
  - destruct (is_open_inv s Ho) as (o & Hf & _).
    exists (file_close o).
    destruct x; cbn [final exit_code]; unfold leave_with;
      cbn [set_sock set_stdout set_f f]; rewrite Hf; repeat split.
  - destruct (Hb eq_refl) as (ds & _ & [= ->]).
    eexists. cbn [final exit_code]. rewrite loop_state_f. repeat split.
Qed.

Lemma file_closed_on_exit_witness :
  starts cut_session 9000 /\
  exists o,
    f (final (python3 cut_session)) = Some o /\
    pending o = [] /\
    closed o = true.
Proof.
  split; [apply session_starts|].
  exact (file_closed_on_exit cut_session 9000 (session_starts _) eq_refl).
Defined.

(** X6. In every session the file is never longer than the byte counter
    says: a turn adds the length to the counter before it writes. While
    the process waits in [recvfrom] the two are equal. *)
Theorem counter_covers_file (e : env) (port : Z) :
  starts e port -> open_refused e = false ->
  exists b,
    artifact (final (python3 e)) = Some b /\
    len b <= total_bytes (final (python3 e)) /\
    (exit_code (python3 e) = None -> len b = total_bytes (final (python3 e))).
Proof.
  intros Hstart Hopen. rewrite (python3_recording e port Hstart Hopen).
  pose proof (receive_loop_open (events e) (recording_starts e port)
                (recording_starts_open e port)) as Ho.
  pose proof (receive_loop_file_behind (events e) (recording_starts e port)
                (recording_starts_open e port)) as Hbehind.
  pose proof (receive_loop_blocked (events e) (recording_starts e port)
                (recording_starts_open e port)) as Hb.
  change (total_bytes (recording_starts e port)) with 0 in Hbehind.
  change (len (contents_of (recording_starts e port))) with 0 in Hbehind.
  destruct (receive_loop (events e) (recording_starts e port))
    as [[[]|x|] s]; cbn [fst snd] in *.
  - destruct (is_open_inv s Ho) as (o & Hf & _).
    unfold contents_of in Hbehind. rewrite Hf in Hbehind.
    exists (contents o). cbn [final exit_code]. unfold artifact, leave_with.
    cbn [set_sock set_f f total_bytes]. rewrite Hf.
    split; [reflexivity|]. split; [lia|discriminate].
  - destruct (is_open_inv s Ho) as (o & Hf & _).
    unfold contents_of in Hbehind. rewrite Hf in Hbehind.
    exists (contents o).
    destruct x; cbn [final exit_code]; unfold artifact, leave_with;
      cbn [set_sock set_stdout set_f f total_bytes]; rewrite Hf;
      (split; [reflexivity|]); (split; [lia|discriminate]).
  - destruct (Hb eq_refl) as (ds & _ & [= ->]).
    exists (payloads ds). cbn [final exit_code]. unfold artifact.
    rewrite loop_state_f, loop_state_total_bytes, len_payloads.
    split; [reflexivity|]. split; [lia|reflexivity].
Qed.

Lemma counter_covers_file_witness :
  starts early_interrupt 9000 /\
  exists b,
    artifact (final (python3 early_interrupt)) = Some b /\
    len b <= total_bytes (final (python3 early_interrupt)).
Proof.
  split; [apply session_starts|].
  destruct (counter_covers_file early_interrupt 9000 (session_starts _) eq_refl)
    as (b & H1 & H2 & _).
  exists b. split; [exact H1 | exact H2].
Defined.

(** X7. In every session, however it ends, the file is a prefix of what the
    socket delivered, datagram after datagram in the order of arrival:
    nothing is written twice, out of order, or that was not received. *)
Theorem file_is_prefix_of_stream (e : env) (port : Z) :
  starts e port -> open_refused e = false ->
  exists b rest,
    artifact (final (python3 e)) = Some b /\
    received (events e) = b ++ rest.
Proof.
  intros Hstart Hopen. rewrite (python3_recording e port Hstart Hopen).
  pose proof (receive_loop_open (events e) (recording_starts e port)
                (recording_starts_open e port)) as Ho.
  pose proof (receive_loop_blocked (events e) (recording_starts e port)
                (recording_starts_open e port)) as Hb.
  destruct (receive_loop_contents (events e) (recording_starts e port)
              (recording_starts_open e port)) as (w & rest & Hw & Hrest).
  change (contents_of (recording_starts e port)) with (@nil Byte.byte) in Hw.
  cbn [app] in Hw.
  destruct (receive_loop (events e) (recording_starts e port))
    as [[[]|x|] s]; cbn [fst snd] in *.
  - destruct (is_open_inv s Ho) as (o & Hf & _).
    unfold contents_of in Hw. rewrite Hf in Hw.
    exists w, rest. cbn [final]. unfold artifact, leave_with.
    cbn [set_sock set_f f]. rewrite Hf. cbn [option_map file_close stored].
    fold (contents o). now rewrite Hw.
  - destruct (is_open_inv s Ho) as (o & Hf & _).
    unfold contents_of in Hw. rewrite Hf in Hw.
    exists w, rest.
    destruct x; cbn [final]; unfold artifact, leave_with;
      cbn [set_sock set_stdout set_f f]; rewrite Hf;
      cbn [option_map file_close stored]; fold (contents o);
      now rewrite Hw.
  - destruct (Hb eq_refl) as (ds & Hev & [= ->]).
    exists (payloads ds), []. cbn [final]. unfold artifact.
    rewrite loop_state_f, Hev, received_arrivals, app_nil_r.
    split; reflexivity.
Qed.

Lemma file_is_prefix_of_stream_witness :
  starts cut_session 9000 /\
  exists b rest,
    artifact (final (python3 cut_session)) = Some b /\
    received (events cut_session) = b ++ rest.
Proof.
  split; [apply session_starts|].
  exact (file_is_prefix_of_stream cut_session 9000 (session_starts _) eq_refl).
Defined.

(** X8. [recvfrom(65535)] returns at most 65535 bytes, and the packet is
    counted before its length is added: in every session the byte counter
    is at most 65535 times the packet counter. *)
Theorem bytes_per_packet_bounded (e : env) (port : Z) :
  starts e port -> open_refused e = false ->
  within_bufsize (events e) = true ->
  total_bytes (final (python3 e)) <= 65535 * packet_count (final (python3 e)).
Proof.
  intros Hstart Hopen Hbuf. rewrite (python3_recording e port Hstart Hopen).
  pose proof (receive_loop_bufsize (events e) (recording_starts e port) Hbuf)
    as Hloop.
  change (total_bytes (recording_starts e port)) with 0 in Hloop.
  change (packet_count (recording_starts e port)) with 0 in Hloop.
  specialize (Hloop ltac:(lia)).
  destruct (receive_loop (events e) (recording_starts e port))
    as [[[]|x|] s]; cbn [snd] in Hloop; try exact Hloop.
  destruct x; exact Hloop.
Qed.

Lemma bytes_per_packet_bounded_witness :
  within_bufsize (events (session (arrivals burst))) = true /\
  total_bytes (final (python3 (session (arrivals burst))))
  <= 65535 * packet_count (final (python3 (session (arrivals burst)))).
Proof.
  split; [reflexivity|].
  exact (bytes_per_packet_bounded (session (arrivals burst)) 9000
           (session_starts _) eq_refl eq_refl).
Defined.

(** X9. The packet counter is the number of datagrams handled to the end
    of their turn, or one more when the session ended in the middle of a
    turn; while the process waits in [recvfrom] it is exactly that
    number. *)
Theorem counter_overcounts_by_one_at_most (e : env) (port : Z) :
  starts e port -> open_refused e = false ->
  Z.of_nat (handled (events e))
  <= packet_count (final (python3 e))
  <= Z.of_nat (handled (events e)) + 1 /\
  (exit_code (python3 e) = None ->
   packet_count (final (python3 e)) = Z.of_nat (handled (events e))).
Proof.
  intros Hstart Hopen. rewrite (python3_recording e port Hstart Hopen).
  pose proof (receive_loop_counts (events e) (recording_starts e port)
                (recording_starts_open e port)) as Hc.
  pose proof (receive_loop_blocked (events e) (recording_starts e port)
                (recording_starts_open e port)) as Hb.
  change (packet_count (recording_starts e port)) with 0 in Hc.
  destruct (receive_loop (events e) (recording_starts e port))
    as [[[]|x|] s]; cbn [fst snd] in *.
  - split; [cbn; lia|discriminate].
  - destruct x; (split; [cbn; lia|discriminate]).
  - destruct (Hb eq_refl) as (ds & Hev & [= ->]).
    cbn [final exit_code]. rewrite loop_state_packet_count in *.
    split; [lia|]. intros _. rewrite Hev.
    clear. induction ds as [|d ds IH]; [reflexivity|].
    cbn [arrivals map handled smooth List.length]. fold (arrivals ds).
    rewrite !Nat2Z.inj_succ. now rewrite IH.
Qed.

Lemma counter_overcounts_by_one_at_most_witness :
  starts failed_write 9000 /\
  0 <= packet_count (final (python3 failed_write)) <= 1.
Proof.
  split; [apply session_starts|].
  exact (proj1 (counter_overcounts_by_one_at_most failed_write 9000
                  (session_starts _) eq_refl)).
Defined.
